(** * Authentication backend: rate limiting, progressive login delay and
      the password-reset token lifecycle.

    A shallow embedding of

      - [src/lib/rate-limit.ts]          (modules [RateLimit] and
        [PrototypeChain] below),
      - [src/lib/password.ts]            (module [Password]),
      - [src/app/api/auth/register/route.ts],
        [src/app/api/auth/login/route.ts],
        [src/app/api/auth/forgot-password/route.ts],
        [src/app/api/auth/reset-password/route.ts]   (modules [Register],
        [Login], [ForgotPassword], [ResetPassword]),

    followed by the theorems about them.

    Modelling conventions.
      - JavaScript numbers that hold counters and millisecond timestamps
        are integers far below 2^53; they are modelled by [Z].
      - Strings are Rocq strings, one character per code unit.
      - The two module-level objects [rateLimitStore] and
        [failedLoginStore] are used as string-keyed dictionaries; their
        own properties are modelled by [gmap string _]. Module
        [RateLimit], and the handlers on top of it, take [store[key]] to
        be the own property [key]: that is the code for every identity
        that names no property of [Object.prototype]. Module
        [PrototypeChain] follows [store[key]] through the prototype for
        the three functions that write to the stores; the two modules
        agree on the own properties ([checkRateLimit_ordinary] and its
        two companions).
      - Everything the handlers read from outside (wall clock, random
        generator, bcrypt, zod's e-mail format test, the SMTP transport)
        is collected in a record [Env]; the mutable part (the two stores,
        the two database tables, the mails sent, how many clock readings
        and random draws were consumed) is the record [World].
      - Handlers run in a small state-and-exception monad [M]: a thrown
        JavaScript exception keeps the side effects made so far. *)

From Stdlib Require Import ZArith String Ascii List Bool Lia.
From stdpp Require Import base option gmap strings list fin_maps.

Local Open Scope string_scope.
Local Open Scope Z_scope.

(* ===================================================================== *)
(** * Data model                                                          *)
(* ===================================================================== *)

(** [interface RateLimitEntry] of rate-limit.ts. *)
Record RateLimitEntry := mkRateLimitEntry {
  count : Z;
  resetAt : Z;
  failedAttempts : Z;
  lastFailedAt : option Z
}.

(** The anonymous entry type of [failedLoginStore]. *)
Record FailedLoginEntry := mkFailedLoginEntry {
  attempts : Z;
  lastAttempt : Z;
  nextAllowedAt : Z
}.

(** A value of a JSON object member, as far as the zod schemas of the
    handlers distinguish them: a string, or anything else. *)
Inductive JsonValue :=
  | JString (s : string)
  | JOther.

(** What [await request.json()] yields: it throws on a body that is not
    JSON, and otherwise gives a value that is an object or is not. *)
Inductive Body :=
  | BodyMalformed
  | BodyNotObject
  | BodyObject (members : gmap string JsonValue).

(** The part of [NextRequest] the code reads: [headers.get] and [json]. *)
Record NextRequest := mkNextRequest {
  headers : gmap string string;
  json : Body
}.

(** [interface RateLimitConfig]; the three optional members are [None]
    when the property is missing ([undefined]). *)
Record RateLimitConfig := mkRateLimitConfig {
  windowMs : Z;
  maxAttempts : Z;
  skipSuccessfulRequests : option bool;
  skipFailedRequests : option bool;
  keyGenerator : option (NextRequest -> string)
}.

(** Rows of the Prisma models [User] and [VerificationToken]
    ([token] is [@unique] and is the key of the table below). *)
Record User := mkUser {
  id : string;
  name : option string;
  email : string;
  password : string;
  emailVerified : option Z;
  image : option string;
  createdAt : Z;
  updatedAt : Z
}.

Record VerificationToken := mkVerificationToken {
  identifier : string;
  expires : Z
}.

(** The message handed to [transporter.sendMail]. *)
Record Mail := mkMail {
  mail_to : string;
  mail_subject : string;
  mail_userName : string;
  mail_token : string
}.

(** [PasswordValidationError] of password.ts, by its [code]. *)
Inductive PasswordValidationError :=
  | password_length
  | password_uppercase
  | password_lowercase
  | password_number
  | password_special.

(** The [select]ed columns returned to the client. *)
Record PublicUser := mkPublicUser {
  pu_id : string;
  pu_name : option string;
  pu_email : string;
  pu_image : option string;
  pu_emailVerified : option Z;
  pu_createdAt : option Z
}.

(** [details] of an error body: zod's formatted issues (their layout is
    zod's and is not modelled) or the list of password rule violations. *)
Inductive Details :=
  | ZodIssues
  | PasswordErrors (errs : list PasswordValidationError).

(** JSON bodies built by [NextResponse.json]. *)
Inductive ResponseBody :=
  | ErrorBody (message : string) (code : option string)
              (retryAfter : option Z) (details : option Details)
  | MessageBody (message : string) (user : option PublicUser).

(** A response header value: a number printed with [toString], or an
    instant printed with [toISOString]. *)
Inductive HeaderValue :=
  | HNumber (n : Z)
  | HInstant (ms : Z).

Record Response := mkResponse {
  body : ResponseBody;
  status : Z;
  resp_headers : list (string * HeaderValue)
}.

(** ** The environment and the mutable world *)

Record Env := mkEnv {
  (** the successive readings of the wall clock ([Date.now()], [new Date()]) *)
  clock : nat -> Z;
  (** the successive results of [crypto.randomBytes(32).toString("hex")]
      and of the database's id generator *)
  randomHex : nat -> string;
  (** bcryptjs [hash(_, SALT_ROUNDS)] (the salt it draws is part of the
      function) and [compare] *)
  bcrypt_hash : string -> string;
  bcrypt_compare : string -> string -> bool;
  (** zod's [z.string().email()] format test *)
  isEmail : string -> bool;
  (** whether the mail transport delivers the message (it throws otherwise) *)
  transportAccepts : Mail -> bool;
  (** [env.security.resetTokenExpiry], in seconds *)
  resetTokenExpiry : Z
}.

Record World := mkWorld {
  rateLimitStore : gmap string RateLimitEntry;
  failedLoginStore : gmap string FailedLoginEntry;
  users : list User;
  verificationTokens : gmap string VerificationToken;
  outbox : list Mail;
  ticks : nat;
  draws : nat
}.

Definition set_rateLimitStore (s : gmap string RateLimitEntry) (w : World) : World :=
  mkWorld s (failedLoginStore w) (users w) (verificationTokens w)
          (outbox w) (ticks w) (draws w).

Definition set_failedLoginStore (s : gmap string FailedLoginEntry) (w : World) : World :=
  mkWorld (rateLimitStore w) s (users w) (verificationTokens w)
          (outbox w) (ticks w) (draws w).

Definition set_users (us : list User) (w : World) : World :=
  mkWorld (rateLimitStore w) (failedLoginStore w) us (verificationTokens w)
          (outbox w) (ticks w) (draws w).

Definition set_verificationTokens (ts : gmap string VerificationToken) (w : World) : World :=
  mkWorld (rateLimitStore w) (failedLoginStore w) (users w) ts
          (outbox w) (ticks w) (draws w).

Definition set_outbox (ms : list Mail) (w : World) : World :=
  mkWorld (rateLimitStore w) (failedLoginStore w) (users w) (verificationTokens w)
          ms (ticks w) (draws w).

Definition set_ticks (n : nat) (w : World) : World :=
  mkWorld (rateLimitStore w) (failedLoginStore w) (users w) (verificationTokens w)
          (outbox w) n (draws w).

Definition set_draws (n : nat) (w : World) : World :=
  mkWorld (rateLimitStore w) (failedLoginStore w) (users w) (verificationTokens w)
          (outbox w) (ticks w) n.

(** The state of a freshly started process with an empty database. *)
Definition initialWorld : World :=
  mkWorld ∅ ∅ [] ∅ [] 0%nat 0%nat.

(* ===================================================================== *)
(** * The monad of handlers: state and exceptions                         *)
(* ===================================================================== *)

Inductive Outcome (A : Type) :=
  | Returned (a : A)
  | Thrown.
Arguments Returned {A} a.
Arguments Thrown {A}.

Definition M (A : Type) : Type := World -> Outcome A * World.

Definition ret {A} (a : A) : M A := fun w => (Returned a, w).

Definition bind {A B} (m : M A) (k : A -> M B) : M B :=
  fun w => match m w with
           | (Returned a, w') => k a w'
           | (Thrown, w') => (Thrown, w')
           end.

Definition throw {A} : M A := fun w => (Thrown, w).

(** [try { m } catch (e) { h }] *)
Definition try_catch {A} (m : M A) (h : M A) : M A :=
  fun w => match m w with
           | (Returned a, w') => (Returned a, w')
           | (Thrown, w') => h w'
           end.

Definition gets {A} (f : World -> A) : M A := fun w => (Returned (f w), w).
Definition modify (f : World -> World) : M unit := fun w => (Returned tt, f w).

Notation "'let!' x ':=' m 'in' k" := (bind m (fun x => k))
  (at level 10, x name, m at level 100, k at level 200).
Notation "'do!' m 'in' k" := (bind m (fun _ => k))
  (at level 10, m at level 100, k at level 200).

(** [Date.now()] / [new Date()]: the next reading of the clock. *)
Definition dateNow (env : Env) : M Z :=
  fun w => (Returned (clock env (ticks w)), set_ticks (S (ticks w)) w).

(** The next value of the random generator. *)
Definition nextRandomHex (env : Env) : M string :=
  fun w => (Returned (randomHex env (draws w)), set_draws (S (draws w)) w).

(** The world a computation leaves behind, and what it returned. *)
Definition exec {A} (m : M A) (w : World) : World := snd (m w).
Definition result {A} (m : M A) (w : World) : Outcome A := fst (m w).

(* ===================================================================== *)
(** * src/lib/rate-limit.ts                                               *)
(* ===================================================================== *)

Module RateLimit.

(** Throughout this module [store[key]] is the own property [key] of the
    store, absent or present: the functions are those of the code for a
    key that names no property of [Object.prototype]. Module
    [PrototypeChain] below gives the three functions that write to the
    stores for every key. *)

(** [a || b] where [a] is the result of [headers.get]: [null] and the
    empty string are falsy. *)
Definition or_else (a : option string) (b : string) : string :=
  match a with
  | Some s => if String.eqb s "" then b else s
  | None => b
  end.

(** A missing optional boolean ([undefined]) is falsy. *)
Definition truthy (b : option bool) : bool := default false b.

Definition defaultKeyGenerator (request : NextRequest) : string :=
  or_else (headers request !! "x-forwarded-for")
    (or_else (headers request !! "x-real-ip") "unknown").

(** [config.keyGenerator || defaultKeyGenerator], applied to the request. *)
Definition keyOf (config : RateLimitConfig) (request : NextRequest) : string :=
  match keyGenerator config with
  | Some generate => generate request
  | None => defaultKeyGenerator request
  end.

(** The two [forEach] loops delete, among the keys present, those whose
    entry satisfies the test; what remains is the filtered map. *)
Definition cleanupExpiredEntries (env : Env) : M unit :=
  let! now := dateNow env in
  do! modify (fun w =>
        set_rateLimitStore
          (filter (fun kv : string * RateLimitEntry => ¬ (now > resetAt kv.2))
                  (rateLimitStore w)) w) in
  modify (fun w =>
        set_failedLoginStore
          (filter (fun kv : string * FailedLoginEntry =>
                     ¬ (now - lastAttempt kv.2 > 24 * 60 * 60 * 1000))
                  (failedLoginStore w)) w).

Record CheckResult := mkCheckResult {
  isLimited : bool;
  remaining : Z;
  check_resetAt : Z
}.

Definition checkRateLimit (env : Env) (request : NextRequest)
    (config : RateLimitConfig) : M CheckResult :=
  do! cleanupExpiredEntries env in
  let key := keyOf config request in
  let! now := dateNow env in
  let! store := gets rateLimitStore in
  let create : M RateLimitEntry :=
    let entry := mkRateLimitEntry 0 (now + windowMs config) 0 None in
    do! modify (fun w => set_rateLimitStore (<[key := entry]> (rateLimitStore w)) w) in
    ret entry in
  let! entry :=
    match store !! key with
    | None => create
    | Some entry => if now >? resetAt entry then create else ret entry
    end in
  let wouldExceed := count entry >=? maxAttempts config in
  let remaining := Z.max 0 (maxAttempts config - count entry) in
  ret (mkCheckResult wouldExceed remaining (resetAt entry)).

Definition updateRateLimit (env : Env) (request : NextRequest)
    (config : RateLimitConfig) (success : bool) : M unit :=
  let key := keyOf config request in
  let! store := gets rateLimitStore in
  match store !! key with
  | None => ret tt
  | Some _ =>
      let shouldCount :=
        if success then negb (truthy (skipSuccessfulRequests config))
        else negb (truthy (skipFailedRequests config)) in
      do! (if shouldCount
           then modify (fun w =>
                  set_rateLimitStore
                    (alter (fun e => mkRateLimitEntry (count e + 1) (resetAt e)
                                       (failedAttempts e) (lastFailedAt e))
                           key (rateLimitStore w)) w)
           else ret tt) in
      if negb success then
        do! modify (fun w =>
              set_rateLimitStore
                (alter (fun e => mkRateLimitEntry (count e) (resetAt e)
                                   (failedAttempts e + 1) (lastFailedAt e))
                       key (rateLimitStore w)) w) in
        let! now := dateNow env in
        modify (fun w =>
              set_rateLimitStore
                (alter (fun e => mkRateLimitEntry (count e) (resetAt e)
                                   (failedAttempts e) (Some now))
                       key (rateLimitStore w)) w)
      else ret tt
  end.

(** [Math.pow(2, attempts - 1)] is only reached with [1 <= attempts <= 5]. *)
Definition calculateProgressiveDelay (attempts : Z) : Z :=
  if attempts <=? 0 then 0
  else if attempts <=? 5 then 2 ^ (attempts - 1) * 1000
  else 30 * 1000.

Record DelayResult := mkDelayResult {
  isDelayed : bool;
  delayMs : Z;
  delay_nextAllowedAt : Z
}.

Definition checkLoginDelay (env : Env) (request : NextRequest) : M DelayResult :=
  do! cleanupExpiredEntries env in
  let key := defaultKeyGenerator request in
  let! now := dateNow env in
  let! store := gets failedLoginStore in
  match store !! key with
  | None => ret (mkDelayResult false 0 now)
  | Some entry =>
      if now <? nextAllowedAt entry
      then ret (mkDelayResult true (nextAllowedAt entry - now) (nextAllowedAt entry))
      else ret (mkDelayResult false 0 now)
  end.

(** [entry] aliases the object held by the store, so the assignments to
    its members are updates of the stored entry. *)
Definition recordFailedLogin (env : Env) (request : NextRequest) : M unit :=
  let key := defaultKeyGenerator request in
  let! now := dateNow env in
  let! store := gets failedLoginStore in
  let entry :=
    match store !! key with
    | Some entry => entry
    | None => mkFailedLoginEntry 0 now now
    end in
  let entry :=
    if now - lastAttempt entry >? 60 * 60 * 1000
    then mkFailedLoginEntry 0 (lastAttempt entry) (nextAllowedAt entry)
    else entry in
  let entry := mkFailedLoginEntry (attempts entry + 1) now (nextAllowedAt entry) in
  let delay := calculateProgressiveDelay (attempts entry) in
  let entry := mkFailedLoginEntry (attempts entry) (lastAttempt entry) (now + delay) in
  modify (fun w => set_failedLoginStore (<[key := entry]> (failedLoginStore w)) w).

Definition clearFailedLogins (request : NextRequest) : M unit :=
  let key := defaultKeyGenerator request in
  modify (fun w => set_failedLoginStore (delete key (failedLoginStore w)) w).

(** [Math.ceil(ms / 1000)] on an integer number of milliseconds. *)
Definition ceilSeconds (ms : Z) : Z := - ((- ms) / 1000).

Definition createRateLimitMiddleware (env : Env) (config : RateLimitConfig)
    (request : NextRequest) : M (option Response) :=
  let! r := checkRateLimit env request config in
  if isLimited r then
    let resetTime := HInstant (check_resetAt r) in
    let! now1 := dateNow env in
    let! now2 := dateNow env in
    ret (Some (mkResponse
           (ErrorBody "Too many requests. Please try again later."
                      (Some "RATE_LIMIT_EXCEEDED")
                      (Some (ceilSeconds (check_resetAt r - now1))) None)
           429
           [("X-RateLimit-Limit", HNumber (maxAttempts config));
            ("X-RateLimit-Remaining", HNumber (remaining r));
            ("X-RateLimit-Reset", resetTime);
            ("Retry-After", HNumber (ceilSeconds (check_resetAt r - now2)))]))
  else ret None.

Definition createLoginDelayMiddleware (env : Env)
    (request : NextRequest) : M (option Response) :=
  let! r := checkLoginDelay env request in
  if isDelayed r then
    ret (Some (mkResponse
           (ErrorBody "Too many failed login attempts. Please try again later."
                      (Some "LOGIN_DELAY")
                      (Some (ceilSeconds (delayMs r))) None)
           429
           [("Retry-After", HNumber (ceilSeconds (delayMs r)))]))
  else ret None.

Module rateLimitConfigs.

Definition auth : RateLimitConfig :=
  mkRateLimitConfig (60 * 60 * 1000) 5 (Some true) None None.

Definition login : RateLimitConfig :=
  mkRateLimitConfig (15 * 60 * 1000) 5 (Some true) None None.

Definition passwordReset : RateLimitConfig :=
  mkRateLimitConfig (60 * 60 * 1000) 3 (Some true) None None.

End rateLimitConfigs.

End RateLimit.

(* ===================================================================== *)
(** * Property access on the two stores                                   *)
(* ===================================================================== *)

(** [rateLimitStore] and [failedLoginStore] are object literals: their
    prototype is [Object.prototype], and [store[key]] finds, after the own
    properties of the store, the properties of [Object.prototype]. The key
    is the identity of the request, a header the client chooses.

    Module [RateLimit] gives the functions of rate-limit.ts on the own
    properties of the stores; that is what the code does for a key that
    names no property of [Object.prototype]. This module gives
    [checkRateLimit], [updateRateLimit] and [recordFailedLogin] for every
    key: for the names of the built-in members of [Object.prototype], and
    for the names of the members those calls in turn write on it. The
    module is strict code (it is an ES module): an assignment to a member
    of a number throws a [TypeError]. *)
Module PrototypeChain.
Import RateLimit.

(** The own properties of [Object.prototype] in a fresh realm. *)
Definition builtinMembers : list string :=
  ["constructor"; "__proto__"; "hasOwnProperty"; "isPrototypeOf";
   "propertyIsEnumerable"; "toLocaleString"; "toString"; "valueOf";
   "__defineGetter__"; "__defineSetter__"; "__lookupGetter__";
   "__lookupSetter__"].

Definition builtin (key : string) : bool :=
  existsb (String.eqb key) builtinMembers.

(** A number as the limiter computes it: an integer or [NaN]. A member
    that is missing ([undefined]) is [None]. *)
Inductive Number :=
  | Num (z : Z)
  | NaN.

(** [v + 1]: [undefined + 1] and [NaN + 1] are [NaN]. *)
Definition plusOne (v : option Number) : Number :=
  match v with
  | Some (Num z) => Num (z + 1)
  | _ => NaN
  end.

(** [v >= n]: a comparison with [undefined] or [NaN] is false. *)
Definition geq (v : option Number) (n : Z) : bool :=
  match v with
  | Some (Num z) => z >=? n
  | _ => false
  end.

(** [Math.max(0, n - v)]: [NaN] as soon as [v] is [undefined] or [NaN]. *)
Definition maxOfZeroAnd (n : Z) (v : option Number) : Number :=
  match v with
  | Some (Num z) => Num (Z.max 0 (n - z))
  | _ => NaN
  end.

(** [now - t > n] for a time stamp [t] that may be [undefined]. *)
Definition olderThan (now : Z) (t : option Z) (n : Z) : bool :=
  match t with
  | Some t => now - t >? n
  | None => false
  end.

(** [calculateProgressiveDelay]: with [NaN] both comparisons are false and
    the last [return] is reached. *)
Definition calculateProgressiveDelay (attempts : Number) : Z :=
  match attempts with
  | Num z => RateLimit.calculateProgressiveDelay z
  | NaN => 30 * 1000
  end.

(** The members the three functions assign to, on an object that is not
    an entry of a store. [resetAt] is not among them: it is only ever set
    in the object literal of a new entry. *)
Record Members := mkMembers {
  m_count : option Number;
  m_failedAttempts : option Number;
  m_lastFailedAt : option Z;
  m_attempts : option Number;
  m_lastAttempt : option Z;
  m_nextAllowedAt : option Z
}.

Definition noMembers : Members := mkMembers None None None None None None.

(** The heap: the world of the handlers, and what has been assigned to
    [Object.prototype] itself and to its built-in function members. *)
Record Heap := mkHeap {
  world : World;
  objectPrototype : Members;
  functionObjects : gmap string Members
}.

Definition set_world (w : World) (h : Heap) : Heap :=
  mkHeap w (objectPrototype h) (functionObjects h).

(** The heap of a process in which nothing was assigned to
    [Object.prototype] or its members. *)
Definition pristine (w : World) : Heap := mkHeap w noMembers ∅.

Definition H (A : Type) : Type := Heap -> Outcome A * Heap.

Definition retH {A} (a : A) : H A := fun h => (Returned a, h).

Definition bindH {A B} (m : H A) (k : A -> H B) : H B :=
  fun h => match m h with
           | (Returned a, h') => k a h'
           | (Thrown, h') => (Thrown, h')
           end.

Definition throwTypeError {A} : H A := fun h => (Thrown, h).

Definition getsH {A} (f : Heap -> A) : H A := fun h => (Returned (f h), h).

(** A computation of the handlers' monad, run on the world of the heap. *)
Definition lift {A} (m : M A) : H A :=
  fun h => (fst (m (world h)), set_world (snd (m (world h))) h).

Notation "'let*' x ':=' m 'in' k" := (bindH m (fun x => k))
  (at level 10, x name, m at level 100, k at level 200).
Notation "'do*' m 'in' k" := (bindH m (fun _ => k))
  (at level 10, m at level 100, k at level 200).

(** What [store[key]] evaluates to. *)
Inductive Slot (E : Type) :=
  | Own (entry : E)
  | Builtin (name : string)
  | Primitive (v : Number)
  | Undefined.
Arguments Own {E} entry.
Arguments Builtin {E} name.
Arguments Primitive {E} v.
Arguments Undefined {E}.

(** The property [key] of [Object.prototype], when a call of the limiter
    created it. *)
Definition written (p : Members) (key : string) : option Number :=
  if String.eqb key "count" then m_count p
  else if String.eqb key "failedAttempts" then m_failedAttempts p
  else if String.eqb key "lastFailedAt" then Num <$> m_lastFailedAt p
  else if String.eqb key "attempts" then m_attempts p
  else if String.eqb key "lastAttempt" then Num <$> m_lastAttempt p
  else if String.eqb key "nextAllowedAt" then Num <$> m_nextAllowedAt p
  else None.

(** [store[key]]: an own property of the store; else a built-in member
    of [Object.prototype] (a function, or for [__proto__] the prototype
    itself); else a number written on [Object.prototype]; else
    [undefined]. *)
Definition get {E} (store : World -> gmap string E) (key : string)
    : H (Slot E) :=
  getsH (fun h =>
    match store (world h) !! key with
    | Some entry => Own entry
    | None =>
        if builtin key then Builtin key
        else match written (objectPrototype h) key with
             | Some v => Primitive v
             | None => Undefined
             end
    end).

(** Objects are truthy; of the numbers, [0] and [NaN] are falsy. *)
Definition truthy {E} (s : Slot E) : bool :=
  match s with
  | Own _ | Builtin _ => true
  | Primitive (Num z) => negb (z =? 0)
  | Primitive NaN | Undefined => false
  end.

(** The members assigned to the built-in [name] itself: [__proto__]
    evaluates to [Object.prototype], the other names to functions. *)
Definition ownMembers (name : string) (h : Heap) : Members :=
  if String.eqb name "__proto__" then objectPrototype h
  else default noMembers (functionObjects h !! name).

Definition set_ownMembers (name : string) (m : Members) (h : Heap) : Heap :=
  if String.eqb name "__proto__" then mkHeap (world h) m (functionObjects h)
  else mkHeap (world h) (objectPrototype h) (<[name := m]> (functionObjects h)).

(** [object.member] for the built-in [name]: its own member, else the one
    it inherits from [Object.prototype]. *)
Definition member {A} (f : Members -> option A) (name : string) (h : Heap)
    : option A :=
  match f (ownMembers name h) with
  | Some v => Some v
  | None => f (objectPrototype h)
  end.

Record CheckResult := mkCheckResult {
  isLimited : bool;
  remaining : Number;
  check_resetAt : option Z
}.

Definition checkRateLimit (env : Env) (request : NextRequest)
    (config : RateLimitConfig) : H CheckResult :=
  do* lift (cleanupExpiredEntries env) in
  let key := keyOf config request in
  let* now := lift (dateNow env) in
  let* found := get rateLimitStore key in
  (* the result when [entry] is an entry of the store *)
  let checked (entry : RateLimitEntry) : CheckResult :=
    mkCheckResult (count entry >=? maxAttempts config)
      (Num (Z.max 0 (maxAttempts config - count entry)))
      (Some (resetAt entry)) in
  (* the result when it is not: [entry.count] is what was assigned, if
     anything; [entry.resetAt] is [undefined], which also makes
     [now > entry.resetAt] false *)
  let inherited (count : option Number) : CheckResult :=
    mkCheckResult (geq count (maxAttempts config))
      (maxOfZeroAnd (maxAttempts config) count) None in
  let create : H CheckResult :=
    let entry := mkRateLimitEntry 0 (now + windowMs config) 0 None in
    do* lift (modify (fun w =>
          set_rateLimitStore (<[key := entry]> (rateLimitStore w)) w)) in
    retH (checked entry) in
  match found with
  | Own entry =>
      if now >? resetAt entry then create else retH (checked entry)
  | Undefined => create
  | Builtin name =>
      let* count := getsH (member m_count name) in
      retH (inherited count)
  | Primitive _ =>
      if truthy found then
        let* count := getsH (fun h => m_count (objectPrototype h)) in
        retH (inherited count)
      else create
  end.

(** [rateLimitStore[key].member = ...] and [... += 1]: on an entry of the
    store, on a built-in, or on a number (a [TypeError]). *)
Definition assign (found : Slot RateLimitEntry) (key : string)
    (onEntry : RateLimitEntry -> RateLimitEntry)
    (onBuiltin : string -> Heap -> Members -> Members) : H unit :=
  match found with
  | Own _ =>
      lift (modify (fun w =>
        set_rateLimitStore (alter onEntry key (rateLimitStore w)) w))
  | Builtin name =>
      fun h => (Returned tt,
                set_ownMembers name (onBuiltin name h (ownMembers name h)) h)
  | Primitive _ | Undefined => throwTypeError
  end.

Definition updateRateLimit (env : Env) (request : NextRequest)
    (config : RateLimitConfig) (success : bool) : H unit :=
  let key := keyOf config request in
  let* found := get rateLimitStore key in
  if negb (truthy found) then retH tt
  else
    let shouldCount :=
      if success then negb (RateLimit.truthy (skipSuccessfulRequests config))
      else negb (RateLimit.truthy (skipFailedRequests config)) in
    do* (if shouldCount
         then assign found key
                (fun e => mkRateLimitEntry (count e + 1) (resetAt e)
                            (failedAttempts e) (lastFailedAt e))
                (fun name h m => mkMembers
                   (Some (plusOne (member m_count name h)))
                   (m_failedAttempts m) (m_lastFailedAt m)
                   (m_attempts m) (m_lastAttempt m) (m_nextAllowedAt m))
         else retH tt) in
    if negb success then
      do* assign found key
            (fun e => mkRateLimitEntry (count e) (resetAt e)
                        (failedAttempts e + 1) (lastFailedAt e))
            (fun name h m => mkMembers (m_count m)
               (Some (plusOne (member m_failedAttempts name h)))
               (m_lastFailedAt m)
               (m_attempts m) (m_lastAttempt m) (m_nextAllowedAt m)) in
      let* now := lift (dateNow env) in
      assign found key
        (fun e => mkRateLimitEntry (count e) (resetAt e)
                    (failedAttempts e) (Some now))
        (fun _ _ m => mkMembers (m_count m) (m_failedAttempts m) (Some now)
           (m_attempts m) (m_lastAttempt m) (m_nextAllowedAt m))
    else retH tt.

Definition recordFailedLogin (env : Env) (request : NextRequest) : H unit :=
  let key := defaultKeyGenerator request in
  let* now := lift (dateNow env) in
  let* found := get failedLoginStore key in
  (* [entry] is an entry of the store, found there or created now *)
  let stored (entry : FailedLoginEntry) : H unit :=
    let entry :=
      if now - lastAttempt entry >? 60 * 60 * 1000
      then mkFailedLoginEntry 0 (lastAttempt entry) (nextAllowedAt entry)
      else entry in
    let entry := mkFailedLoginEntry (attempts entry + 1) now (nextAllowedAt entry) in
    let delay := RateLimit.calculateProgressiveDelay (attempts entry) in
    let entry := mkFailedLoginEntry (attempts entry) (lastAttempt entry) (now + delay) in
    lift (modify (fun w =>
      set_failedLoginStore (<[key := entry]> (failedLoginStore w)) w)) in
  match found with
  | Own entry => stored entry
  | Undefined => stored (mkFailedLoginEntry 0 now now)
  | Builtin name =>
      let* last := getsH (member m_lastAttempt name) in
      let* before := getsH (member m_attempts name) in
      let attempts :=
        plusOne (if olderThan now last (60 * 60 * 1000)
                 then Some (Num 0) else before) in
      let delay := calculateProgressiveDelay attempts in
      fun h => (Returned tt,
                set_ownMembers name
                  (let m := ownMembers name h in
                   mkMembers (m_count m) (m_failedAttempts m) (m_lastFailedAt m)
                     (Some attempts) (Some now) (Some (now + delay))) h)
  | Primitive _ =>
      if truthy found then throwTypeError
      else stored (mkFailedLoginEntry 0 now now)
  end.

(** [key] names no property of [Object.prototype]: [store[key]] is an
    own property of the store, or [undefined]. *)
Definition ordinary (h : Heap) (key : string) : Prop :=
  builtin key = false /\ written (objectPrototype h) key = None.

(** The result of [RateLimit.checkRateLimit], as a result of this
    module's. *)
Definition ofCheckResult (r : RateLimit.CheckResult) : CheckResult :=
  mkCheckResult (RateLimit.isLimited r) (Num (RateLimit.remaining r))
    (Some (RateLimit.check_resetAt r)).

(** [n] consecutive runs of [m]. *)
Fixpoint repeat (m : H unit) (n : nat) : H unit :=
  match n with
  | O => retH tt
  | S n' => do* m in repeat m n'
  end.

End PrototypeChain.

(* ===================================================================== *)
(** * src/lib/password.ts                                                 *)
(* ===================================================================== *)

Module Password.

Definition inRange (lo hi : nat) (c : ascii) : bool :=
  let n := nat_of_ascii c in ((lo <=? n) && (n <=? hi))%nat.

(** The character classes [A-Z], [a-z], [0-9] and [^A-Za-z0-9]. *)
Definition isUppercase (c : ascii) : bool := inRange 65 90 c.
Definition isLowercase (c : ascii) : bool := inRange 97 122 c.
Definition isDigit (c : ascii) : bool := inRange 48 57 c.
Definition isSpecial (c : ascii) : bool :=
  negb (isUppercase c || isLowercase c || isDigit c).

(** [/[class]/.test(s)]: some character of [s] is in the class. *)
Fixpoint test (class : ascii -> bool) (s : string) : bool :=
  match s with
  | EmptyString => false
  | String c rest => class c || test class rest
  end.

(** [PASSWORD_REQUIREMENTS.minLength]; the four [require...] flags are
    [true]. *)
Definition minLength : nat := 8.

Definition validatePasswordStrength (password : string)
    : list PasswordValidationError :=
  (if (String.length password <? minLength)%nat then [password_length] else [])
  ++ (if negb (test isUppercase password) then [password_uppercase] else [])
  ++ (if negb (test isLowercase password) then [password_lowercase] else [])
  ++ (if negb (test isDigit password) then [password_number] else [])
  ++ (if negb (test isSpecial password) then [password_special] else []).

Definition hashPassword (env : Env) (password : string) : M string :=
  ret (bcrypt_hash env password).

Definition isPasswordStrengthAcceptable (password : string) : bool :=
  (length (validatePasswordStrength password) =? 0)%nat.

End Password.

(* ===================================================================== *)
(** * The Prisma client, on the two tables the handlers use               *)
(* ===================================================================== *)

(** A call throws when the database would reject it: a second row with a
    [@unique] value, or an update or delete of a row that does not exist.
    A database that cannot be reached is not modelled. *)
Module Prisma.

Definition user_findUnique_email (e : string) : M (option User) :=
  gets (fun w => List.find (fun u => String.eqb (email u) e) (users w)).

Definition user_findUnique_id (i : string) : M (option User) :=
  gets (fun w => List.find (fun u => String.eqb (id u) i) (users w)).

(** [prisma.user.create]: [id] and [createdAt] take their defaults. *)
Definition user_create (env : Env) (n e p : string) : M User :=
  let! sameEmail := user_findUnique_email e in
  let! newId := nextRandomHex env in
  let! sameId := user_findUnique_id newId in
  match sameEmail, sameId with
  | None, None =>
      let! now := dateNow env in
      let user := mkUser newId (Some n) e p None None now now in
      do! modify (fun w => set_users (users w ++ [user]) w) in
      ret user
  | _, _ => throw
  end.

(** [prisma.user.update({ where: { id }, data: { password, updatedAt } })] *)
Definition user_update (i : string) (p : string) (at_ : Z) : M unit :=
  let! row := user_findUnique_id i in
  match row with
  | None => throw
  | Some _ =>
      modify (fun w =>
        set_users
          (map (fun u => if String.eqb (id u) i
                         then mkUser (id u) (name u) (email u) p
                                (emailVerified u) (image u) (createdAt u) at_
                         else u)
               (users w)) w)
  end.

Definition verificationToken_findUnique (token : string)
    : M (option VerificationToken) :=
  gets (fun w => verificationTokens w !! token).

Definition verificationToken_create (i token : string) (e : Z) : M unit :=
  let! row := verificationToken_findUnique token in
  match row with
  | Some _ => throw
  | None =>
      modify (fun w =>
        set_verificationTokens
          (<[token := mkVerificationToken i e]> (verificationTokens w)) w)
  end.

Definition verificationToken_delete (token : string) : M unit :=
  let! row := verificationToken_findUnique token in
  match row with
  | None => throw
  | Some _ =>
      modify (fun w =>
        set_verificationTokens (delete token (verificationTokens w)) w)
  end.

End Prisma.

(* ===================================================================== *)
(** * Request bodies and the zod schemas                                  *)
(* ===================================================================== *)

Module Schema.

(** [await request.json()] *)
Definition requestJson (request : NextRequest) : M Body :=
  match json request with
  | BodyMalformed => throw
  | b => ret b
  end.

(** A member declared [z.string()]: present, and a string. *)
Definition stringMember (o : gmap string JsonValue) (k : string) : option string :=
  match o !! k with
  | Some (JString s) => Some s
  | _ => None
  end.

(** [.min(n, _)] on a string. *)
Definition min (n : nat) (s : string) : bool := (n <=? String.length s)%nat.

Record RegisterData := mkRegisterData {
  reg_name : string;
  reg_email : string;
  reg_password : string
}.

Record LoginData := mkLoginData {
  login_email : string;
  login_password : string;
  login_callbackUrl : option string
}.

Record ResetPasswordData := mkResetPasswordData {
  reset_token : string;
  reset_password : string;
  reset_confirmPassword : string
}.

(** Each [safeParse] below returns [Some data] for [success: true]. *)
Definition registerSchema (env : Env) (b : Body) : option RegisterData :=
  match b with
  | BodyObject o =>
      match stringMember o "name", stringMember o "email",
            stringMember o "password" with
      | Some n, Some e, Some p =>
          if min 2 n && isEmail env e && min 8 p
          then Some (mkRegisterData n e p) else None
      | _, _, _ => None
      end
  | _ => None
  end.

Definition loginSchema (env : Env) (b : Body) : option LoginData :=
  match b with
  | BodyObject o =>
      match stringMember o "email", stringMember o "password" with
      | Some e, Some p =>
          if isEmail env e && min 1 p then
            match o !! "callbackUrl" with
            | None => Some (mkLoginData e p None)
            | Some (JString u) => Some (mkLoginData e p (Some u))
            | Some JOther => None
            end
          else None
      | _, _ => None
      end
  | _ => None
  end.

Definition forgotPasswordSchema (env : Env) (b : Body) : option string :=
  match b with
  | BodyObject o =>
      match stringMember o "email" with
      | Some e => if isEmail env e then Some e else None
      | None => None
      end
  | _ => None
  end.

Definition resetPasswordSchema (b : Body) : option ResetPasswordData :=
  match b with
  | BodyObject o =>
      match stringMember o "token", stringMember o "password",
            stringMember o "confirmPassword" with
      | Some t, Some p, Some c =>
          if min 1 t && min 8 p && min 8 c && String.eqb p c
          then Some (mkResetPasswordData t p c) else None
      | _, _, _ => None
      end
  | _ => None
  end.

End Schema.

(** [NextResponse.json(body, { status })] *)
Definition jsonResponse (b : ResponseBody) (s : Z) : Response :=
  mkResponse b s [].

Definition errorMessage (message : string) (s : Z) : Response :=
  jsonResponse (ErrorBody message None None None) s.

(* ===================================================================== *)
(** * src/app/api/auth/register/route.ts                                  *)
(* ===================================================================== *)

Module Register.
Import RateLimit Schema.

Definition POST (env : Env) (request : NextRequest) : M Response :=
  try_catch
    (let! rateLimitResponse :=
       createRateLimitMiddleware env rateLimitConfigs.auth request in
     match rateLimitResponse with
     | Some response => ret response
     | None =>
     let! body := requestJson request in
     match registerSchema env body with
     | None =>
         ret (jsonResponse
                (ErrorBody "Invalid input data" None None (Some ZodIssues)) 400)
     | Some data =>
     let passwordErrors := Password.validatePasswordStrength (reg_password data) in
     if (0 <? length passwordErrors)%nat then
       ret (jsonResponse
              (ErrorBody "Password does not meet security requirements" None None
                         (Some (PasswordErrors passwordErrors))) 400)
     else
     let! existingUser := Prisma.user_findUnique_email (reg_email data) in
     match existingUser with
     | Some _ =>
         do! updateRateLimit env request rateLimitConfigs.auth false in
         ret (errorMessage "Email already registered" 409)
     | None =>
     let! hashedPassword := Password.hashPassword env (reg_password data) in
     let! user := Prisma.user_create env (reg_name data) (reg_email data)
                                     hashedPassword in
     do! updateRateLimit env request rateLimitConfigs.auth true in
     ret (jsonResponse
            (MessageBody "User registered successfully"
               (Some (mkPublicUser (id user) (name user) (email user) None None
                                   (Some (createdAt user))))) 201)
     end end end)
    (ret (errorMessage "Failed to register user" 500)).

End Register.

(* ===================================================================== *)
(** * src/app/api/auth/login/route.ts                                     *)
(* ===================================================================== *)

Module Login.
Import RateLimit Schema.

Definition POST (env : Env) (request : NextRequest) : M Response :=
  try_catch
    (let! rateLimitResponse :=
       createRateLimitMiddleware env rateLimitConfigs.login request in
     match rateLimitResponse with
     | Some response => ret response
     | None =>
     let! delayResponse := createLoginDelayMiddleware env request in
     match delayResponse with
     | Some response => ret response
     | None =>
     let! body := requestJson request in
     match loginSchema env body with
     | None =>
         do! recordFailedLogin env request in
         do! updateRateLimit env request rateLimitConfigs.login false in
         ret (jsonResponse
                (ErrorBody "Invalid input data" None None (Some ZodIssues)) 400)
     | Some data =>
     try_catch
       (let! user := Prisma.user_findUnique_email (login_email data) in
        let matches :=
          match user with
          | Some u => bcrypt_compare env (login_password data) (password u)
          | None => false
          end in
        match user, matches with
        | Some u, true =>
            do! clearFailedLogins request in
            do! updateRateLimit env request rateLimitConfigs.login true in
            ret (jsonResponse
                   (MessageBody "Credentials validated successfully"
                      (Some (mkPublicUser (id u) (name u) (email u) (image u)
                                          (emailVerified u) None))) 200)
        | _, _ =>
            do! recordFailedLogin env request in
            do! updateRateLimit env request rateLimitConfigs.login false in
            ret (errorMessage "Invalid email or password" 401)
        end)
       (do! recordFailedLogin env request in
        do! updateRateLimit env request rateLimitConfigs.login false in
        ret (errorMessage "Authentication failed" 500))
     end end end)
    (do! recordFailedLogin env request in
     do! updateRateLimit env request rateLimitConfigs.login false in
     ret (errorMessage "Failed to process login request" 500)).

End Login.

(* ===================================================================== *)
(** * src/app/api/auth/forgot-password/route.ts                           *)
(* ===================================================================== *)

Module ForgotPassword.
Import RateLimit Schema.

Definition generateToken (env : Env) : M string := nextRandomHex env.

(** The transport is created, the message composed and [sendMail]
    awaited; a transport that does not deliver makes the call throw. *)
Definition sendPasswordResetEmail (env : Env) (to token userName : string)
    : M unit :=
  let mailOptions := mkMail to "Password Reset Request" userName token in
  if transportAccepts env mailOptions
  then modify (fun w => set_outbox (outbox w ++ [mailOptions]) w)
  else throw.

Definition successResponse : Response :=
  jsonResponse
    (MessageBody
       "If your email is registered, you will receive a password reset link."
       None) 200.

Definition POST (env : Env) (request : NextRequest) : M Response :=
  try_catch
    (let! rateLimitResponse :=
       createRateLimitMiddleware env rateLimitConfigs.passwordReset request in
     match rateLimitResponse with
     | Some response => ret response
     | None =>
     let! body := requestJson request in
     match forgotPasswordSchema env body with
     | None =>
         do! updateRateLimit env request rateLimitConfigs.passwordReset false in
         ret (jsonResponse
                (ErrorBody "Invalid input data" None None (Some ZodIssues)) 400)
     | Some address =>
     let! user := Prisma.user_findUnique_email address in
     match user with
     | None =>
         do! updateRateLimit env request rateLimitConfigs.passwordReset true in
         ret successResponse
     | Some user =>
     let! token := generateToken env in
     let! now := dateNow env in
     let expiry := now + resetTokenExpiry env * 1000 in
     do! Prisma.verificationToken_create (id user) token expiry in
     do! sendPasswordResetEmail env address token
           (RateLimit.or_else (name user) "User") in
     do! updateRateLimit env request rateLimitConfigs.passwordReset true in
     ret successResponse
     end end end)
    (ret (errorMessage "Failed to process password reset request" 500)).

End ForgotPassword.

(* ===================================================================== *)
(** * src/app/api/auth/reset-password/route.ts                            *)
(* ===================================================================== *)

Module ResetPassword.
Import RateLimit Schema.

Definition POST (env : Env) (request : NextRequest) : M Response :=
  try_catch
    (let! rateLimitResponse :=
       createRateLimitMiddleware env rateLimitConfigs.passwordReset request in
     match rateLimitResponse with
     | Some response => ret response
     | None =>
     let! body := requestJson request in
     match resetPasswordSchema body with
     | None =>
         do! updateRateLimit env request rateLimitConfigs.passwordReset false in
         ret (jsonResponse
                (ErrorBody "Invalid input data" None None (Some ZodIssues)) 400)
     | Some data =>
     let token := reset_token data in
     let passwordErrors :=
       Password.validatePasswordStrength (reset_password data) in
     if (0 <? length passwordErrors)%nat then
       do! updateRateLimit env request rateLimitConfigs.passwordReset false in
       ret (jsonResponse
              (ErrorBody "Password does not meet security requirements" None None
                         (Some (PasswordErrors passwordErrors))) 400)
     else
     let! verificationToken := Prisma.verificationToken_findUnique token in
     match verificationToken with
     | None =>
         do! updateRateLimit env request rateLimitConfigs.passwordReset false in
         ret (errorMessage "Invalid or expired password reset token" 400)
     | Some verificationToken =>
     let! now := dateNow env in
     if now >? expires verificationToken then
       do! Prisma.verificationToken_delete token in
       do! updateRateLimit env request rateLimitConfigs.passwordReset false in
       ret (errorMessage "Password reset token has expired" 400)
     else
     let! user := Prisma.user_findUnique_id (identifier verificationToken) in
     match user with
     | None =>
         do! updateRateLimit env request rateLimitConfigs.passwordReset false in
         ret (errorMessage "User not found" 404)
     | Some user =>
     let! hashedPassword := Password.hashPassword env (reset_password data) in
     let! updatedAt := dateNow env in
     do! Prisma.user_update (id user) hashedPassword updatedAt in
     do! Prisma.verificationToken_delete token in
     do! updateRateLimit env request rateLimitConfigs.passwordReset true in
     ret (jsonResponse
            (MessageBody "Password has been reset successfully" None) 200)
     end end end end)
    (ret (errorMessage "Failed to reset password" 500)).

End ResetPassword.

(* ===================================================================== *)
(** * src/lib/validation.ts                                               *)
(* ===================================================================== *)

(** The schemas of the forms. On a string, [safeParse] is modelled by the
    boolean [success]; on form data, by the parsed data. *)
Module Validation.

(** [\s] on code units below 256: tab, line feed, vertical tab, form feed,
    carriage return, space and no-break space. *)
Definition isWhitespace (c : ascii) : bool :=
  let n := nat_of_ascii c in
  ((9 <=? n) && (n <=? 13) || (n =? 32) || (n =? 160))%nat.

(** [/^[a-zA-Z\s]+$/.test(s)] *)
Fixpoint allLettersOrSpaces (s : string) : bool :=
  match s with
  | EmptyString => true
  | String c rest =>
      (Password.isLowercase c || Password.isUppercase c || isWhitespace c)
      && allLettersOrSpaces rest
  end.

Definition lettersAndSpacesOnly (s : string) : bool :=
  (0 <? String.length s)%nat && allLettersOrSpaces s.

Definition passwordSchema (s : string) : bool :=
  (8 <=? String.length s)%nat
  && Password.test Password.isLowercase s
  && Password.test Password.isUppercase s
  && Password.test Password.isDigit s
  && Password.test Password.isSpecial s.

Definition emailSchema (env : Env) (s : string) : bool :=
  isEmail env s && (1 <=? String.length s)%nat.

Definition nameSchema (s : string) : bool :=
  (2 <=? String.length s)%nat && (String.length s <=? 50)%nat
  && lettersAndSpacesOnly s.

Record RegisterFormData := mkRegisterFormData {
  form_name : string;
  form_email : string;
  form_password : string;
  form_confirmPassword : string
}.

Definition registerSchema (env : Env) (o : gmap string JsonValue)
    : option RegisterFormData :=
  match Schema.stringMember o "name", Schema.stringMember o "email",
        Schema.stringMember o "password",
        Schema.stringMember o "confirmPassword" with
  | Some n, Some e, Some p, Some c =>
      if nameSchema n && emailSchema env e && passwordSchema p
         && (1 <=? String.length c)%nat && String.eqb p c
      then Some (mkRegisterFormData n e p c) else None
  | _, _, _, _ => None
  end.

Record PasswordStrengthResult := mkPasswordStrengthResult {
  score : Z;
  feedback : list string
}.

(** One [if (test) { score += 1 } else { feedback.push(message) }]. *)
Definition requirement (met : bool) (message : string)
    (r : PasswordStrengthResult) : PasswordStrengthResult :=
  if met then mkPasswordStrengthResult (score r + 1) (feedback r)
  else mkPasswordStrengthResult (score r) (feedback r ++ [message]).

Definition validatePasswordStrength (password : string)
    : PasswordStrengthResult :=
  let r := mkPasswordStrengthResult 0 [] in
  let r := requirement (8 <=? String.length password)%nat
             "Use at least 8 characters" r in
  let r := requirement (Password.test Password.isLowercase password)
             "Add lowercase letters" r in
  let r := requirement (Password.test Password.isUppercase password)
             "Add uppercase letters" r in
  let r := requirement (Password.test Password.isDigit password)
             "Add numbers" r in
  let r := requirement (Password.test Password.isSpecial password)
             "Add special characters" r in
  r.

End Validation.

(* ===================================================================== *)
(** * src/lib/client-validation.ts                                        *)
(* ===================================================================== *)

Module ClientValidation.

Record ValidationResult := mkValidationResult {
  isValid : bool;
  error : option string;
  warning : option string;
  strength : option Validation.PasswordStrengthResult
}.

(** [!s] on a string: the empty string is falsy. *)
Definition isEmpty (s : string) : bool := String.eqb s "".

Definition validatePasswordField (password : string) : ValidationResult :=
  if isEmpty password then mkValidationResult false None None None
  else
    let strength := Validation.validatePasswordStrength password in
    if Validation.score strength <? 3 then
      mkValidationResult false (Some "Password is too weak") None (Some strength)
    else if Validation.score strength <? 5 then
      mkValidationResult true None (Some "Password could be stronger")
        (Some strength)
    else mkValidationResult true None None (Some strength).

Definition validateNameField (name : string) : ValidationResult :=
  if isEmpty name then mkValidationResult false None None None
  else if (String.length name <? 2)%nat then
    mkValidationResult false (Some "Name must be at least 2 characters long")
      None None
  else if (50 <? String.length name)%nat then
    mkValidationResult false (Some "Name must be less than 50 characters")
      None None
  else if negb (Validation.lettersAndSpacesOnly name) then
    mkValidationResult false (Some "Name can only contain letters and spaces")
      None None
  else mkValidationResult true None None None.

End ClientValidation.

(* ===================================================================== *)
(** * src/lib/auth.ts: the credentials provider                           *)
(* ===================================================================== *)

Module Auth.




End Auth.

(* ===================================================================== *)
(** * Concrete environments, requests and worlds                          *)
(* ===================================================================== *)

Module Scenario.

(** Some character of [s] is [c]. *)
Definition contains (c : ascii) (s : string) : bool :=
  Password.test (Ascii.eqb c) s.

(** A clock that advances by one millisecond per reading, a transport that
    delivers, tokens valid for 24 hours. *)
Definition env : Env :=
  mkEnv (fun n => 1700000000000 + Z.of_nat n)
        (fun n => String (ascii_of_nat (97 + n)) "9f3c")
        (fun p => "bcrypt:" ++ p)%string
        (fun p h => String.eqb ("bcrypt:" ++ p)%string h)
        (contains "@")
        (fun _ => true)
        86400.


Definition alice : User :=
  mkUser "u1" (Some "Alice") "alice@example.com" "bcrypt:Secret123!"
         None None 1600000000000 1600000000000.

Definition requestFrom (ip : string) (members : list (string * string))
    : NextRequest :=
  mkNextRequest {[ "x-forwarded-for" := ip ]}
    (BodyObject (list_to_map (map (fun kv => (kv.1, JString kv.2)) members))).

(** A database holding [alice] and nothing else; no request served yet. *)
Definition registered : World :=
  mkWorld ∅ ∅ [alice] ∅ [] 0%nat 0%nat.

(** [alice] holds the reset token ["t0"], which expires at [expiry]. *)
Definition withToken (expiry : Z) : World :=
  mkWorld ∅ ∅ [alice] {[ "t0" := mkVerificationToken "u1" expiry ]} []
          0%nat 0%nat.

Definition resetRequest : NextRequest :=
  requestFrom "10.0.0.1"
    [("token", "t0"); ("password", "NewSecret123!");
     ("confirmPassword", "NewSecret123!")].

Definition forgotRequest : NextRequest :=
  requestFrom "10.0.0.1" [("email", "alice@example.com")].

Definition loginRequest (pw : string) : NextRequest :=
  requestFrom "10.0.0.1" [("email", "alice@example.com"); ("password", pw)].

(** A registration whose name is too short and whose address is no
    address. *)
Definition malformedRegistration : NextRequest :=
  requestFrom "10.0.0.1" [("name", "A"); ("email", "nobody"); ("password", "short")].

(** A registration accepted by the schema with a password that breaks
    four of the five strength rules. *)
Definition weakRegistration : NextRequest :=
  requestFrom "10.0.0.1"
    [("name", "Bob"); ("email", "bob@example.com"); ("password", "password")].

(** A registration for the address [alice] already holds. *)
Definition duplicateRegistration : NextRequest :=
  requestFrom "10.0.0.1"
    [("name", "Alice"); ("email", "alice@example.com"); ("password", "Secret123!")].

(** The identity 10.0.0.1 has used up [n] attempts of a window that is
    open until [until]. *)
Definition spent (n until : Z) : World :=
  mkWorld {[ "10.0.0.1" := mkRateLimitEntry n until n None ]} ∅ [alice] ∅ []
          0%nat 0%nat.

(** The identity 10.0.0.1 failed to log in three times, the last time at
    the instant of the first clock reading. *)
Definition delayed : World :=
  mkWorld ∅ {[ "10.0.0.1" :=
                 mkFailedLoginEntry 3 1700000000000 1700000004000 ]}
          [alice] ∅ [] 0%nat 0%nat.


(** A request whose body is not JSON. *)
Definition garbledRequest : NextRequest :=
  mkNextRequest {[ "x-forwarded-for" := "10.0.0.1" ]} BodyMalformed.

Definition bobRegistration : NextRequest :=
  requestFrom "10.0.0.1"
    [("name", "Bob"); ("email", "bob@example.com"); ("password", "Secret123!")].

Definition bobLogin : NextRequest :=
  requestFrom "10.0.0.1" [("email", "bob@example.com"); ("password", "Secret123!")].

(** The reset request that presents the first token the generator draws. *)
Definition issuedTokenReset : NextRequest :=
  requestFrom "10.0.0.1"
    [("token", "a9f3c"); ("password", "NewSecret123!");
     ("confirmPassword", "NewSecret123!")].

(** A request whose [x-forwarded-for] header is the name of a built-in
    member of [Object.prototype]. *)
Definition fromConstructor : NextRequest :=
  requestFrom "constructor" [("email", "alice@example.com")].

(** The data of the registration form, filled in. *)
Definition registrationForm : gmap string JsonValue :=
  list_to_map
    [("name", JString "Alice Smith"); ("email", JString "alice@example.com");
     ("password", JString "Secret123!");
     ("confirmPassword", JString "Secret123!")].

End Scenario.

(* ===================================================================== *)
(** * Auxiliary definitions used to state the properties                  *)
(* ===================================================================== *)

(** [n] consecutive calls of [checkRateLimit] with no [updateRateLimit]
    in between. *)
Fixpoint repeatCheck (env : Env) (request : NextRequest)
    (config : RateLimitConfig) (n : nat) : M unit :=
  match n with
  | O => ret tt
  | S n' =>
      do! RateLimit.checkRateLimit env request config in
      repeatCheck env request config n'
  end.

(** The entry [checkRateLimit] works with after its lazy
    (re)initialisation: the stored one, unless the sweep (first clock
    reading) or the expiry test (second clock reading) found it expired. *)
Definition freshEntry (now : Z) (config : RateLimitConfig) : RateLimitEntry :=
  mkRateLimitEntry 0 (now + windowMs config) 0 None.

Definition entryAfterCheck (env : Env) (config : RateLimitConfig)
    (key : string) (w : World) : RateLimitEntry :=
  let now := clock env (S (ticks w)) in
  match rateLimitStore w !! key with
  | Some e =>
      if (clock env (ticks w) >? resetAt e) || (now >? resetAt e)
      then freshEntry now config else e
  | None => freshEntry now config
  end.

(** The entry [updateRateLimit] leaves in place of [e]. *)
Definition countsAgainstQuota (config : RateLimitConfig) (success : bool) : bool :=
  negb ((success && RateLimit.truthy (skipSuccessfulRequests config))
        || (negb success && RateLimit.truthy (skipFailedRequests config))).

Definition entryAfterUpdate (config : RateLimitConfig) (success : bool)
    (now : Z) (e : RateLimitEntry) : RateLimitEntry :=
  mkRateLimitEntry
    (if countsAgainstQuota config success then count e + 1 else count e)
    (resetAt e)
    (if success then failedAttempts e else failedAttempts e + 1)
    (if success then lastFailedAt e else Some now).

(** The entry [recordFailedLogin] stores, given what it found. *)
Definition entryAfterFailure (now : Z) (found : option FailedLoginEntry)
    : FailedLoginEntry :=
  let streak :=
    match found with
    | None => 0
    | Some e => if now - lastAttempt e >? 60 * 60 * 1000 then 0 else attempts e
    end in
  mkFailedLoginEntry (streak + 1) now
    (now + RateLimit.calculateProgressiveDelay (streak + 1)).

(** The identity [key] has quota left under [config]: no entry yet, or
    an entry whose [count] is below [maxAttempts]. *)
Definition underLimit (config : RateLimitConfig) (key : string) (w : World)
    : Prop :=
  0 < maxAttempts config /\
  forall e, rateLimitStore w !! key = Some e -> count e < maxAttempts config.



(** The server handling [requests] one after the other. *)
Fixpoint handleAll (handler : NextRequest -> M Response)
    (requests : list NextRequest) : M (list Response) :=
  match requests with
  | [] => ret []
  | request :: rest =>
      let! response := handler request in
      let! responses := handleAll handler rest in
      ret (response :: responses)
  end.

(** [count] of the entry of [key] in [w'] was not raised above what it was
    in [w]: it is 0 (the window was reset) or the [count] found in [w]. *)
Definition countNotRaised (key : string) (w w' : World) : Prop :=
  forall e', rateLimitStore w' !! key = Some e' ->
    count e' = 0 \/
    exists e, rateLimitStore w !! key = Some e /\ count e' = count e.

(* ===================================================================== *)
(** * Properties of src/lib/rate-limit.ts                                 *)
(* ===================================================================== *)

Lemma gtb_true (a b : Z) : a > b -> (a >? b) = true.
Proof. intros H. destruct (Z.gtb_spec a b); [reflexivity | lia]. Qed.

Lemma gtb_false (a b : Z) : a <= b -> (a >? b) = false.
Proof. intros H. destruct (Z.gtb_spec a b); [lia | reflexivity]. Qed.

Lemma geb_true (a b : Z) : a >= b -> (a >=? b) = true.
Proof. intros H. apply Z.geb_le. lia. Qed.

Lemma geb_false (a b : Z) : a < b -> (a >=? b) = false.
Proof.
  intros H. destruct (a >=? b) eqn:E; [|reflexivity].
  apply Z.geb_le in E. lia.
Qed.

Section RateLimitFacts.
Import RateLimit.

Context (env : Env).

(** ** The sweep *)

Lemma cleanup_run w :
  cleanupExpiredEntries env w =
  (Returned tt,
   mkWorld
     (filter (fun kv : string * RateLimitEntry =>
                ¬ (clock env (ticks w) > resetAt kv.2)) (rateLimitStore w))
     (filter (fun kv : string * FailedLoginEntry =>
                ¬ (clock env (ticks w) - lastAttempt kv.2 > 24 * 60 * 60 * 1000))
             (failedLoginStore w))
     (users w) (verificationTokens w) (outbox w) (S (ticks w)) (draws w)).
Proof. reflexivity. Qed.

Lemma cleanup_rateLimit_lookup w key :
  rateLimitStore (exec (cleanupExpiredEntries env) w) !! key =
  match rateLimitStore w !! key with
  | Some e => if clock env (ticks w) >? resetAt e then None else Some e
  | None => None
  end.
Proof.
  unfold exec. rewrite cleanup_run. cbn [snd rateLimitStore].
  destruct (rateLimitStore w !! key) as [e|] eqn:E.
  - destruct (Z.gtb_spec (clock env (ticks w)) (resetAt e)) as [H|H].
    + apply map_lookup_filter_None. right. intros x Hx. cbn.
      rewrite E in Hx. injection Hx as <-. lia.
    + apply map_lookup_filter_Some. split; [done|]. cbn. lia.
  - apply map_lookup_filter_None. left. done.
Qed.

Lemma cleanup_failedLogin_lookup w key :
  failedLoginStore (exec (cleanupExpiredEntries env) w) !! key =
  match failedLoginStore w !! key with
  | Some e => if clock env (ticks w) - lastAttempt e >? 24 * 60 * 60 * 1000
              then None else Some e
  | None => None
  end.
Proof.
  unfold exec. rewrite cleanup_run. cbn [snd failedLoginStore].
  destruct (failedLoginStore w !! key) as [e|] eqn:E.
  - destruct (Z.gtb_spec (clock env (ticks w) - lastAttempt e) (24 * 60 * 60 * 1000))
      as [H|H].
    + apply map_lookup_filter_None. right. intros x Hx. cbn.
      rewrite E in Hx. injection Hx as <-. lia.
    + apply map_lookup_filter_Some. split; [done|]. cbn. lia.
  - apply map_lookup_filter_None. left. done.
Qed.

(** ** [checkRateLimit] *)

Lemma checkRateLimit_run request config w :
  let key := keyOf config request in
  let e := entryAfterCheck env config key w in
  let w1 := exec (cleanupExpiredEntries env) w in
  checkRateLimit env request config w =
  (Returned (mkCheckResult (count e >=? maxAttempts config)
                           (Z.max 0 (maxAttempts config - count e)) (resetAt e)),
   mkWorld (<[key := e]> (rateLimitStore w1)) (failedLoginStore w1)
           (users w) (verificationTokens w) (outbox w)
           (S (S (ticks w))) (draws w)).
Proof.
  intros key e w1.
  pose proof (cleanup_rateLimit_lookup w key) as Hl. fold w1 in Hl.
  unfold checkRateLimit, bind. fold key.
  change (cleanupExpiredEntries env w) with (Returned tt, w1) in *.
  cbn [dateNow gets]. cbv beta iota.
  change (ticks w1) with (S (ticks w)).
  change (rateLimitStore (set_ticks (S (S (ticks w))) w1)) with (rateLimitStore w1).
  rewrite Hl. subst e. unfold entryAfterCheck.
  destruct (rateLimitStore w !! key) as [e0|] eqn:E; [|reflexivity].
  destruct (clock env (ticks w) >? resetAt e0) eqn:G1; cbn [orb]; [reflexivity|].
  destruct (clock env (S (ticks w)) >? resetAt e0) eqn:G2; [reflexivity|].
  cbn. f_equal. unfold set_ticks. cbn. f_equal.
  symmetry. apply insert_id. exact Hl.
Qed.

Lemma entryAfterCheck_cases config key w :
  let now := clock env (S (ticks w)) in
  entryAfterCheck env config key w = freshEntry now config \/
  rateLimitStore w !! key = Some (entryAfterCheck env config key w).
Proof.
  unfold entryAfterCheck. cbv zeta.
  destruct (rateLimitStore w !! key) as [e|]; [|by left].
  destruct (_ || _); [by left | by right].
Qed.

Lemma checkRateLimit_lookup request config w :
  rateLimitStore (exec (checkRateLimit env request config) w)
    !! keyOf config request
  = Some (entryAfterCheck env config (keyOf config request) w).
Proof.
  unfold exec. rewrite checkRateLimit_run. cbn [snd rateLimitStore].
  apply lookup_insert_eq.
Qed.

Lemma repeatCheck_never_increments request config n : forall w,
  let key := keyOf config request in
  let after := rateLimitStore (exec (repeatCheck env request config n) w) !! key in
  after = rateLimitStore w !! key \/ exists e, after = Some e /\ count e = 0.
Proof.
  induction n as [|n IH]; intros w key after; [by left|].
  subst after. cbn [repeatCheck]. unfold exec, bind.
  rewrite checkRateLimit_run. fold key.
  match goal with |- context [repeatCheck _ _ _ _ ?w1] => set (w1' := w1) end.
  destruct (IH w1') as [H|H]; fold key in H; unfold exec in H.
  - rewrite H. unfold w1'. cbn [rateLimitStore]. rewrite lookup_insert_eq.
    destruct (entryAfterCheck_cases config key w) as [F|F].
    + right. eexists. split; [reflexivity|]. by rewrite F.
    + left. by rewrite F.
  - by right.
Qed.

(** [checkRateLimit], for an identity that names no member of
    [Object.prototype]: an absent or expired entry ([now > resetAt], with
    [now] the clock reading of the expiry test) is replaced by
    [{count: 0, resetAt: now + windowMs, failedAttempts: 0}]; the result is
    [isLimited = (count >= maxAttempts)] and
    [remaining = max(0, maxAttempts - count)] for the entry then in the
    store; an entry still inside its window is left as it is; and after any
    number of consecutive checks the entry is the one found at the start or
    one whose [count] is 0, so no check ever increments [count]. *)
Lemma checkRateLimit_postcondition request config w :
  let key := keyOf config request in
  let now := clock env (S (ticks w)) in
  let before := rateLimitStore w !! key in
  let after :=
    rateLimitStore (exec (checkRateLimit env request config) w) !! key in
  PrototypeChain.builtin key = false ->
  ((before = None \/ exists e, before = Some e /\ now > resetAt e) ->
   after = Some (mkRateLimitEntry 0 (now + windowMs config) 0 None)) /\
  (exists e r,
     after = Some e /\
     result (checkRateLimit env request config) w = Returned r /\
     (isLimited r = true <-> count e >= maxAttempts config) /\
     remaining r = Z.max 0 (maxAttempts config - count e) /\
     check_resetAt r = resetAt e) /\
  (forall e, before = Some e ->
     clock env (ticks w) <= resetAt e -> now <= resetAt e ->
     after = Some e) /\
  (forall n,
     let after_n :=
       rateLimitStore (exec (repeatCheck env request config n) w) !! key in
     after_n = before \/ exists e, after_n = Some e /\ count e = 0).
Proof.
  intros key now before after _.
  assert (Ha : after = Some (entryAfterCheck env config key w))
    by apply checkRateLimit_lookup.
  repeat split.
  - rewrite Ha. unfold entryAfterCheck. fold before now.
    intros [->|(e & -> & Hexp)]; [reflexivity|].
    rewrite (gtb_true now (resetAt e)) by lia.
    by rewrite orb_true_r.
  - eexists _, _. split; [exact Ha|]. unfold result.
    rewrite checkRateLimit_run. cbn [fst isLimited remaining check_resetAt].
    fold key. repeat split; try reflexivity.
    + intros H. apply Z.geb_le in H. lia.
    + intros H. apply Z.geb_le. lia.
  - intros e Hb H0 H1. rewrite Ha. unfold entryAfterCheck. fold before now.
    rewrite Hb.
    rewrite (gtb_false (clock env (ticks w)) (resetAt e)) by lia.
    rewrite (gtb_false now (resetAt e)) by lia.
    reflexivity.
  - intros n. apply repeatCheck_never_increments.
Qed.

(** ** [updateRateLimit] *)

Lemma updateRateLimit_absent request config success w :
  rateLimitStore w !! keyOf config request = None ->
  updateRateLimit env request config success w = (Returned tt, w).
Proof.
  intros H. unfold updateRateLimit, bind, gets. cbv beta iota. by rewrite H.
Qed.

Lemma updateRateLimit_present request config success w e :
  let key := keyOf config request in
  rateLimitStore w !! key = Some e ->
  updateRateLimit env request config success w =
  (Returned tt,
   mkWorld (<[key := entryAfterUpdate config success (clock env (ticks w)) e]>
              (rateLimitStore w))
           (failedLoginStore w) (users w) (verificationTokens w) (outbox w)
           (if success then ticks w else S (ticks w)) (draws w)).
Proof.
  intros key H. unfold updateRateLimit, bind, gets. cbv beta iota.
  fold key. rewrite H. unfold entryAfterUpdate, countsAgainstQuota.
  assert (Hid : forall e0, e0 = mkRateLimitEntry (count e0) (resetAt e0)
                                  (failedAttempts e0) (lastFailedAt e0))
    by (by intros []).
  destruct success; cbn [negb andb orb];
    destruct (truthy _); cbn [negb];
    unfold ret, modify, dateNow, set_rateLimitStore, set_ticks;
    cbn -[alter insert];
    rewrite ?alter_alter_eq; try rewrite (alter_alt_Some _ _ _ _ H);
    cbn -[alter insert]; try reflexivity.
  rewrite <- Hid, insert_id by done. by destruct w.
Qed.

(** [updateRateLimit], for an identity that names no member of
    [Object.prototype]: with no entry for the identity the call changes
    nothing; otherwise [count] grows by exactly 1 unless the flag of the
    outcome ([skipSuccessfulRequests] for a success, [skipFailedRequests]
    for a failure) is set to [true], [resetAt] is kept, and a failure also
    adds 1 to [failedAttempts] and stamps [lastFailedAt] with the clock,
    whether or not [count] grew; a success leaves those two members
    alone. *)
Lemma updateRateLimit_postcondition request config success w :
  let key := keyOf config request in
  let now := clock env (ticks w) in
  let w' := exec (updateRateLimit env request config success) w in
  let flag :=
    if success then skipSuccessfulRequests config
    else skipFailedRequests config in
  PrototypeChain.builtin key = false ->
  result (updateRateLimit env request config success) w = Returned tt /\
  match rateLimitStore w !! key with
  | None => w' = w
  | Some e =>
      exists e',
        rateLimitStore w' !! key = Some e' /\
        (flag = Some true -> count e' = count e) /\
        (flag <> Some true -> count e' = count e + 1) /\
        resetAt e' = resetAt e /\
        failedAttempts e' =
          (if success then failedAttempts e else failedAttempts e + 1) /\
        lastFailedAt e' = (if success then lastFailedAt e else Some now)
  end.
Proof.
  intros key now w' flag _. subst w'. unfold exec, result.
  destruct (rateLimitStore w !! key) as [e|] eqn:E.
  - rewrite (updateRateLimit_present _ _ _ _ _ E). cbn [fst snd rateLimitStore].
    split; [reflexivity|]. eexists. split; [apply lookup_insert_eq|].
    unfold entryAfterUpdate, countsAgainstQuota.
    cbn [count resetAt failedAttempts lastFailedAt].
    split; [|split; [|by repeat split]]; subst flag.
    + by destruct success; intros ->.
    + destruct success; cbn [andb orb negb].
      * destruct (skipSuccessfulRequests config) as [[]|]; [done | reflexivity..].
      * destruct (skipFailedRequests config) as [[]|]; [done | reflexivity..].
  - rewrite (updateRateLimit_absent _ _ _ _ E). by split.
Qed.

Lemma updateRateLimit_returns request config success w :
  updateRateLimit env request config success w =
  (Returned tt, exec (updateRateLimit env request config success) w).
Proof.
  unfold exec.
  destruct (rateLimitStore w !! keyOf config request) as [e|] eqn:E.
  - by rewrite (updateRateLimit_present _ _ _ _ _ E).
  - by rewrite (updateRateLimit_absent _ _ _ _ E).
Qed.

Lemma updateRateLimit_then {A} request config success (k : M A) w :
  (do! updateRateLimit env request config success in k) w =
  k (exec (updateRateLimit env request config success) w).
Proof. unfold bind. by rewrite updateRateLimit_returns. Qed.

Lemma updateRateLimit_lookup request config success w :
  rateLimitStore (exec (updateRateLimit env request config success) w)
    !! keyOf config request
  = entryAfterUpdate config success (clock env (ticks w))
      <$> rateLimitStore w !! keyOf config request.
Proof.
  unfold exec.
  destruct (rateLimitStore w !! keyOf config request) as [e|] eqn:E.
  - rewrite (updateRateLimit_present _ _ _ _ _ E). cbn [snd rateLimitStore].
    by rewrite lookup_insert_eq.
  - by rewrite (updateRateLimit_absent _ _ _ _ E).
Qed.

Lemma updateRateLimit_frame request config success w :
  let w' := exec (updateRateLimit env request config success) w in
  failedLoginStore w' = failedLoginStore w /\
  users w' = users w /\
  verificationTokens w' = verificationTokens w /\
  outbox w' = outbox w /\
  draws w' = draws w.
Proof.
  cbv zeta. unfold exec.
  destruct (rateLimitStore w !! keyOf config request) as [e|] eqn:E.
  - by rewrite (updateRateLimit_present _ _ _ _ _ E).
  - by rewrite (updateRateLimit_absent _ _ _ _ E).
Qed.

(** An identity with quota left passes the gate. *)
Lemma underLimit_passes request config w :
  underLimit config (keyOf config request) w ->
  count (entryAfterCheck env config (keyOf config request) w)
    < maxAttempts config.
Proof.
  intros [Hpos H].
  destruct (entryAfterCheck_cases config (keyOf config request) w) as [F|F].
  - rewrite F. cbn. lia.
  - by apply H.
Qed.

(** ** Progressive delay *)

(** C6. [calculateProgressiveDelay] follows the table for every integer:
    0 up to 0 attempts, [2^(attempts-1) * 1000] from 1 to 5 attempts (1000,
    2000, 4000, 8000, 16000) and 30000 above 5. *)
Theorem calculateProgressiveDelay_table (attempts : Z) :
  (attempts <= 0 -> calculateProgressiveDelay attempts = 0) /\
  (1 <= attempts <= 5 ->
     calculateProgressiveDelay attempts = 2 ^ (attempts - 1) * 1000) /\
  (attempts > 5 -> calculateProgressiveDelay attempts = 30000) /\
  map calculateProgressiveDelay [1; 2; 3; 4; 5] =
    [1000; 2000; 4000; 8000; 16000].
Proof.
  unfold calculateProgressiveDelay. repeat split.
  - intros H. by rewrite (proj2 (Z.leb_le _ _)) by lia.
  - intros H. rewrite (proj2 (Z.leb_gt _ _)) by lia.
    by rewrite (proj2 (Z.leb_le _ _)) by lia.
  - intros H. by rewrite !(proj2 (Z.leb_gt _ _)) by lia.
Qed.

Lemma recordFailedLogin_run request w :
  let key := defaultKeyGenerator request in
  recordFailedLogin env request w =
  (Returned tt,
   mkWorld (rateLimitStore w)
           (<[key := entryAfterFailure (clock env (ticks w))
                       (failedLoginStore w !! key)]> (failedLoginStore w))
           (users w) (verificationTokens w) (outbox w)
           (S (ticks w)) (draws w)).
Proof.
  intros key. unfold recordFailedLogin, bind, dateNow, gets, modify.
  cbv beta iota zeta. fold key.
  change (failedLoginStore (set_ticks (S (ticks w)) w)) with (failedLoginStore w).
  unfold entryAfterFailure.
  destruct (failedLoginStore w !! key) as [e|]; cbn [lastAttempt attempts nextAllowedAt].
  - by destruct (_ >? _).
  - rewrite Z.sub_diag. reflexivity.
Qed.

(** [recordFailedLogin], for an identity that names no member of
    [Object.prototype]: the entry exists afterwards; a streak whose
    last attempt is more than one hour old is first reset to 0; then
    [attempts] grows by 1, [lastAttempt] is the clock reading and
    [nextAllowedAt] is that reading plus the progressive delay of the new
    [attempts]. The first failure after a stale streak gives [attempts = 1]
    and a delay of one second. Other identities are untouched. *)
Lemma recordFailedLogin_postcondition request w :
  let key := defaultKeyGenerator request in
  let now := clock env (ticks w) in
  let before := failedLoginStore w !! key in
  let w' := exec (recordFailedLogin env request) w in
  PrototypeChain.builtin key = false ->
  result (recordFailedLogin env request) w = Returned tt /\
  (exists e',
     failedLoginStore w' !! key = Some e' /\
     lastAttempt e' = now /\
     nextAllowedAt e' = now + calculateProgressiveDelay (attempts e') /\
     (before = None -> attempts e' = 1) /\
     (forall e, before = Some e -> now - lastAttempt e > 60 * 60 * 1000 ->
        attempts e' = 1 /\ nextAllowedAt e' = now + 1000) /\
     (forall e, before = Some e -> now - lastAttempt e <= 60 * 60 * 1000 ->
        attempts e' = attempts e + 1)) /\
  (forall k, k <> key -> failedLoginStore w' !! k = failedLoginStore w !! k).
Proof.
  intros key now before w' _. subst w'. unfold exec, result.
  rewrite recordFailedLogin_run. cbn [fst snd failedLoginStore]. fold key now before.
  split; [reflexivity|]. split.
  - eexists. split; [apply lookup_insert_eq|].
    unfold entryAfterFailure. cbn [lastAttempt nextAllowedAt attempts].
    repeat split.
    + by intros ->.
    + rewrite H. rewrite gtb_true by lia. reflexivity.
    + rewrite H. rewrite gtb_true by lia. reflexivity.
    + intros e -> H. by rewrite gtb_false by lia.
  - intros k Hk. by rewrite lookup_insert_ne.
Qed.

(** ** The rate-limit gate *)

Lemma afterCheck_frame request config w :
  let w1 := exec (checkRateLimit env request config) w in
  rateLimitStore w1 !! keyOf config request =
    Some (entryAfterCheck env config (keyOf config request) w) /\
  users w1 = users w /\
  verificationTokens w1 = verificationTokens w /\
  outbox w1 = outbox w /\
  draws w1 = draws w /\
  ticks w1 = S (S (ticks w)).
Proof.
  cbv zeta. unfold exec. rewrite checkRateLimit_run. cbn.
  by rewrite lookup_insert_eq.
Qed.

Lemma middleware_pass request config w :
  count (entryAfterCheck env config (keyOf config request) w)
    < maxAttempts config ->
  createRateLimitMiddleware env config request w =
  (Returned None, exec (checkRateLimit env request config) w).
Proof.
  intros H. unfold createRateLimitMiddleware, bind, exec.
  rewrite checkRateLimit_run. cbn [isLimited snd].
  by rewrite geb_false.
Qed.

Lemma middleware_limited request config w :
  count (entryAfterCheck env config (keyOf config request) w)
    >= maxAttempts config ->
  exists retry1 retry2 left_ reset_,
    createRateLimitMiddleware env config request w =
    (Returned (Some (mkResponse
        (ErrorBody "Too many requests. Please try again later."
                   (Some "RATE_LIMIT_EXCEEDED") (Some retry1) None)
        429
        [("X-RateLimit-Limit", HNumber (maxAttempts config));
         ("X-RateLimit-Remaining", HNumber left_);
         ("X-RateLimit-Reset", HInstant reset_);
         ("Retry-After", HNumber retry2)])),
     set_ticks (S (S (S (S (ticks w)))))
       (exec (checkRateLimit env request config) w)).
Proof.
  intros H. unfold createRateLimitMiddleware, bind, exec.
  rewrite checkRateLimit_run. cbn [isLimited snd].
  rewrite geb_true by done. unfold dateNow, ret. cbn.
  by eexists _, _, _, _.
Qed.

Lemma middleware_passes_iff request config w :
  result (createRateLimitMiddleware env config request) w = Returned None <->
  count (entryAfterCheck env config (keyOf config request) w)
    < maxAttempts config.
Proof.
  unfold result. split.
  - intros H.
    destruct (Z.lt_ge_cases
                (count (entryAfterCheck env config (keyOf config request) w))
                (maxAttempts config)) as [L|L]; [done|].
    destruct (middleware_limited request config w) as (?&?&?&?&E); [lia|].
    rewrite E in H. discriminate.
  - intros H. by rewrite middleware_pass.
Qed.

(** ** The login-delay gate *)

Lemma checkLoginDelay_world request w :
  exec (checkLoginDelay env request) w =
  set_ticks (S (S (ticks w))) (exec (cleanupExpiredEntries env) w).
Proof.
  unfold exec, checkLoginDelay, bind. rewrite cleanup_run.
  unfold dateNow, gets. cbv beta iota.
  destruct (_ !! _) as [e|]; [destruct (_ <? _)|]; reflexivity.
Qed.

Lemma checkLoginDelay_returns request w :
  exists r, checkLoginDelay env request w =
            (Returned r, exec (checkLoginDelay env request) w).
Proof.
  unfold exec, checkLoginDelay, bind. rewrite cleanup_run.
  unfold dateNow, gets. cbv beta iota.
  destruct (_ !! _) as [e|]; [destruct (_ <? _)|]; eexists; reflexivity.
Qed.

Lemma loginDelayMiddleware_run request w :
  exists r,
    createLoginDelayMiddleware env request w =
    (Returned r, set_ticks (S (S (ticks w))) (exec (cleanupExpiredEntries env) w)).
Proof.
  unfold createLoginDelayMiddleware, bind.
  destruct (checkLoginDelay_returns request w) as [r ->].
  rewrite checkLoginDelay_world.
  destruct (isDelayed r); eexists; reflexivity.
Qed.

Lemma recordFailedLogin_then {A} request (k : M A) w :
  (do! recordFailedLogin env request in k) w =
  k (exec (recordFailedLogin env request) w).
Proof. unfold bind, exec. by rewrite recordFailedLogin_run. Qed.



End RateLimitFacts.

(* ===================================================================== *)
(** * Identities that name a property of [Object.prototype]               *)
(* ===================================================================== *)

Section PrototypeChainFacts.
Import RateLimit.

Context (env : Env).

(** ** On the own properties of the stores the two models agree *)

Lemma get_ordinary {E} (store : World -> gmap string E) key h :
  PrototypeChain.ordinary h key ->
  PrototypeChain.get store key h =
    (Returned match store (PrototypeChain.world h) !! key with
              | Some e => PrototypeChain.Own e
              | None => PrototypeChain.Undefined
              end, h).
Proof.
  intros [Hb Hw]. unfold PrototypeChain.get, PrototypeChain.getsH.
  by rewrite Hb, Hw.
Qed.

Lemma pristine_ordinary w key :
  PrototypeChain.builtin key = false ->
  PrototypeChain.ordinary (PrototypeChain.pristine w) key.
Proof.
  intros Hb. split; [exact Hb|]. unfold PrototypeChain.written.
  cbn. by repeat destruct (String.eqb key _).
Qed.

Lemma checkRateLimit_ordinary request config h :
  PrototypeChain.ordinary h (keyOf config request) ->
  PrototypeChain.checkRateLimit env request config h =
    (match result (checkRateLimit env request config) (PrototypeChain.world h) with
     | Returned r => Returned (PrototypeChain.ofCheckResult r)
     | Thrown => Thrown
     end,
     PrototypeChain.set_world
       (exec (checkRateLimit env request config) (PrototypeChain.world h)) h).
Proof.
  intros Hk. destruct h as [w p f].
  unfold PrototypeChain.checkRateLimit, PrototypeChain.bindH, PrototypeChain.lift.
  cbn [fst snd PrototypeChain.world PrototypeChain.set_world
       PrototypeChain.objectPrototype PrototypeChain.functionObjects].
  rewrite get_ordinary by exact Hk.
  unfold result, exec, checkRateLimit, bind, gets.
  rewrite cleanup_run.
  cbn [fst snd PrototypeChain.world PrototypeChain.set_world
       PrototypeChain.objectPrototype PrototypeChain.functionObjects
       dateNow ticks set_ticks rateLimitStore].
  destruct (_ !! keyOf config request) as [e|]; [destruct (_ >? _)|]; reflexivity.
Qed.

Lemma updateRateLimit_ordinary request config success h :
  PrototypeChain.ordinary h (keyOf config request) ->
  PrototypeChain.updateRateLimit env request config success h =
    PrototypeChain.lift (updateRateLimit env request config success) h.
Proof.
  intros Hk. destruct h as [w p f].
  unfold PrototypeChain.updateRateLimit, PrototypeChain.bindH.
  rewrite get_ordinary by exact Hk.
  unfold PrototypeChain.lift, updateRateLimit, bind, gets.
  cbn [fst snd PrototypeChain.world].
  destruct (rateLimitStore w !! keyOf config request) as [e|]; [|reflexivity].
  cbn [PrototypeChain.truthy negb].
  destruct success; cbn [negb]; destruct (truthy _); reflexivity.
Qed.

Lemma recordFailedLogin_ordinary request h :
  PrototypeChain.ordinary h (defaultKeyGenerator request) ->
  PrototypeChain.recordFailedLogin env request h =
    PrototypeChain.lift (recordFailedLogin env request) h.
Proof.
  intros Hk. destruct h as [w p f].
  unfold PrototypeChain.recordFailedLogin, PrototypeChain.bindH.
  unfold PrototypeChain.lift at 1. cbn [fst snd PrototypeChain.world dateNow].
  rewrite get_ordinary by exact Hk.
  unfold PrototypeChain.lift, recordFailedLogin, bind, gets, dateNow.
  cbn [fst snd PrototypeChain.world PrototypeChain.set_world failedLoginStore set_ticks].
  destruct (failedLoginStore w !! defaultKeyGenerator request) as [e|]; reflexivity.
Qed.

End PrototypeChainFacts.

Section PrototypeChainScenarios.
Import RateLimit Scenario.

(** C2. At an identity that names a built-in member of [Object.prototype]
    (the client sends it as [x-forwarded-for]), [checkRateLimit] on a
    fresh process creates no entry and returns [isLimited = false] with
    [remaining = NaN] and [resetAt = undefined]; six counted failures
    later it returns the same, and there is still no entry. The same calls
    for the identity 10.0.0.1 create the entry, report 5 remaining
    attempts, and report the limit after the failures. *)
Theorem checkRateLimit_never_limits_builtin_identities :
  let config := rateLimitConfigs.login in
  let calls (request : NextRequest) :=
    let first :=
      PrototypeChain.checkRateLimit env request config
        (PrototypeChain.pristine initialWorld) in
    let failures :=
      PrototypeChain.repeat
        (PrototypeChain.updateRateLimit env request config false) 6 first.2 in
    let second := PrototypeChain.checkRateLimit env request config failures.2 in
    (first, second) in
  let stored (h : PrototypeChain.Heap) (key : string) :=
    rateLimitStore (PrototypeChain.world h) !! key in
  Forall (fun name =>
    let '(first, second) := calls (requestFrom name []) in
    first.1 = Returned (PrototypeChain.mkCheckResult false PrototypeChain.NaN None) /\
    stored first.2 name = None /\
    second.1 = Returned (PrototypeChain.mkCheckResult false PrototypeChain.NaN None) /\
    stored second.2 name = None)
    PrototypeChain.builtinMembers /\
  let '(first, second) := calls (requestFrom "10.0.0.1" []) in
  first.1 = Returned (PrototypeChain.mkCheckResult false (PrototypeChain.Num 5)
                        (Some 1700000900001)) /\
  stored first.2 "10.0.0.1" = Some (mkRateLimitEntry 0 1700000900001 0 None) /\
  second.1 = Returned (PrototypeChain.mkCheckResult true (PrototypeChain.Num 0)
                         (Some 1700000900001)).
Proof.
  split.
  - unfold PrototypeChain.builtinMembers.
    repeat (constructor; [vm_compute; done|]). constructor.
  - vm_compute. done.
Qed.

(** C5. At such an identity, with no entry in the store,
    [updateRateLimit] is no no-op: the call for a failure returns after
    reading the clock and leaves [count = NaN], [failedAttempts = NaN] and
    [lastFailedAt] on the built-in object itself; the store still has no
    entry. The same call for the identity 10.0.0.1 changes nothing; once
    a check has created the entry of 10.0.0.1, a success leaves it as it
    is ([skipSuccessfulRequests] is set) and a failure adds 1 to [count]
    and to [failedAttempts] and stamps [lastFailedAt]. *)
Theorem updateRateLimit_writes_on_builtin_identities :
  let config := rateLimitConfigs.login in
  let fresh := PrototypeChain.pristine initialWorld in
  let known := requestFrom "10.0.0.1" [] in
  let entered := (PrototypeChain.checkRateLimit env known config fresh).2 in
  let updated (success : bool) :=
    rateLimitStore
      (PrototypeChain.world
         (PrototypeChain.updateRateLimit env known config success entered).2)
      !! "10.0.0.1" in
  Forall (fun name =>
    let updated :=
      PrototypeChain.updateRateLimit env (requestFrom name []) config false
        fresh in
    updated.1 = Returned tt /\
    rateLimitStore (PrototypeChain.world updated.2) !! name = None /\
    PrototypeChain.ownMembers name updated.2 =
      PrototypeChain.mkMembers (Some PrototypeChain.NaN) (Some PrototypeChain.NaN)
        (Some 1700000000000) None None None /\
    ticks (PrototypeChain.world updated.2) = 1%nat)
    PrototypeChain.builtinMembers /\
  PrototypeChain.updateRateLimit env known config false fresh
    = (Returned tt, fresh) /\
  updated true = Some (mkRateLimitEntry 0 1700000900001 0 None) /\
  updated false =
    Some (mkRateLimitEntry 1 1700000900001 1 (Some 1700000000002)).
Proof.
  split.
  - unfold PrototypeChain.builtinMembers.
    repeat (constructor; [vm_compute; done|]). constructor.
  - vm_compute. done.
Qed.

(** C7. At such an identity [recordFailedLogin] creates no entry: the
    first failure leaves [attempts = NaN] and
    [nextAllowedAt = now + 30000] on the built-in object itself, and so
    does the second; the store has no entry for the identity. The first
    failure of the identity 10.0.0.1 stores an entry with [attempts = 1]
    and a delay of 1000 ms. *)
Theorem recordFailedLogin_stores_nothing_for_builtin_identities :
  let fresh := PrototypeChain.pristine initialWorld in
  let stored (h : PrototypeChain.Heap) (key : string) :=
    failedLoginStore (PrototypeChain.world h) !! key in
  Forall (fun name =>
    let request := requestFrom name [] in
    let once := PrototypeChain.recordFailedLogin env request fresh in
    let twice := PrototypeChain.recordFailedLogin env request once.2 in
    once.1 = Returned tt /\
    stored once.2 name = None /\
    PrototypeChain.ownMembers name once.2 =
      PrototypeChain.mkMembers None None None (Some PrototypeChain.NaN)
        (Some 1700000000000) (Some 1700000030000) /\
    twice.1 = Returned tt /\
    stored twice.2 name = None /\
    PrototypeChain.ownMembers name twice.2 =
      PrototypeChain.mkMembers None None None (Some PrototypeChain.NaN)
        (Some 1700000000001) (Some 1700000030001))
    PrototypeChain.builtinMembers /\
  stored (PrototypeChain.recordFailedLogin env (requestFrom "10.0.0.1" [])
            fresh).2 "10.0.0.1"
  = Some (mkFailedLoginEntry 1 1700000000000 1700000001000).
Proof.
  split.
  - unfold PrototypeChain.builtinMembers.
    repeat (constructor; [vm_compute; done|]). constructor.
  - vm_compute. done.
Qed.

End PrototypeChainScenarios.

(* ===================================================================== *)
(** * Properties of the database operations                               *)
(* ===================================================================== *)

Section PrismaFacts.
Import Prisma.

Lemma verificationToken_delete_present token w vt :
  verificationTokens w !! token = Some vt ->
  verificationToken_delete token w =
  (Returned tt, set_verificationTokens (delete token (verificationTokens w)) w).
Proof.
  intros H. unfold verificationToken_delete, verificationToken_findUnique,
    bind, gets. cbv beta iota. by rewrite H.
Qed.

Lemma verificationToken_create_fresh i token e w :
  verificationTokens w !! token = None ->
  verificationToken_create i token e w =
  (Returned tt,
   set_verificationTokens
     (<[token := mkVerificationToken i e]> (verificationTokens w)) w).
Proof.
  intros H. unfold verificationToken_create, verificationToken_findUnique,
    bind, gets. cbv beta iota. by rewrite H.
Qed.

Lemma verificationToken_create_duplicate i token e w vt :
  verificationTokens w !! token = Some vt ->
  verificationToken_create i token e w = (Thrown, w).
Proof.
  intros H. unfold verificationToken_create, verificationToken_findUnique,
    bind, gets. cbv beta iota. by rewrite H.
Qed.

Lemma user_update_present i p t w u :
  List.find (fun u => String.eqb (id u) i) (users w) = Some u ->
  user_update i p t w =
  (Returned tt,
   set_users
     (map (fun u => if String.eqb (id u) i
                    then mkUser (id u) (name u) (email u) p
                           (emailVerified u) (image u) (createdAt u) t
                    else u) (users w)) w).
Proof.
  intros H. unfold user_update, user_findUnique_id, bind, gets.
  cbv beta iota. by rewrite H.
Qed.

Lemma find_by_id_found i (us : list User) u :
  List.find (fun u => String.eqb (id u) i) us = Some u -> id u = i.
Proof.
  intros H. apply List.find_some in H as [_ H]. by apply String.eqb_eq.
Qed.

End PrismaFacts.

(* ===================================================================== *)
(** * Properties of the reset-password handler                            *)
(* ===================================================================== *)

Section ResetPasswordFacts.
Import RateLimit Schema ResetPassword.

Context (env : Env).

(** What the handler does with a request that passed the gate, the schema
    and the strength rules: one of the four outcomes of the token lookup. *)
Lemma POST_validated request w data :
  result (createRateLimitMiddleware env rateLimitConfigs.passwordReset request) w
    = Returned None ->
  resetPasswordSchema (json request) = Some data ->
  Password.validatePasswordStrength (reset_password data) = [] ->
  let cfg := rateLimitConfigs.passwordReset in
  let token := reset_token data in
  let w1 := exec (checkRateLimit env request cfg) w in
  let now := clock env (S (S (ticks w))) in
  POST env request w =
  match verificationTokens w !! token with
  | None =>
      (Returned (errorMessage "Invalid or expired password reset token" 400),
       exec (updateRateLimit env request cfg false) w1)
  | Some vt =>
      if now >? expires vt then
        (Returned (errorMessage "Password reset token has expired" 400),
         exec (updateRateLimit env request cfg false)
           (set_verificationTokens (delete token (verificationTokens w))
              (set_ticks (S (S (S (ticks w)))) w1)))
      else
        match List.find (fun u => String.eqb (id u) (identifier vt)) (users w) with
        | None =>
            (Returned (errorMessage "User not found" 404),
             exec (updateRateLimit env request cfg false)
               (set_ticks (S (S (S (ticks w)))) w1))
        | Some user =>
            (Returned (jsonResponse
               (MessageBody "Password has been reset successfully" None) 200),
             exec (updateRateLimit env request cfg true)
               (set_verificationTokens (delete token (verificationTokens w))
                 (set_users
                    (map (fun u =>
                       if String.eqb (id u) (id user)
                       then mkUser (id u) (name u) (email u)
                              (bcrypt_hash env (reset_password data))
                              (emailVerified u) (image u) (createdAt u)
                              (clock env (S (S (S (ticks w)))))
                       else u) (users w))
                    (set_ticks (S (S (S (S (ticks w))))) w1))))
        end
  end.
Proof.
  intros Hgate Hschema Hstrong cfg token w1 now.
  apply middleware_passes_iff in Hgate.
  destruct (afterCheck_frame env request cfg w) as (Hl & Hu & Ht & Ho & Hd & Hk).
  fold w1 in Hl, Hu, Ht, Ho, Hd, Hk.
  unfold POST, try_catch. unfold bind at 1.
  rewrite (middleware_pass env _ _ _ Hgate).
  fold cfg w1. cbv beta iota.
  unfold requestJson. unfold bind at 1.
  destruct (json request) as [| |o] eqn:Hj; try discriminate Hschema;
    unfold ret at 1; cbv beta iota; rewrite Hschema; cbv beta iota zeta.
  rewrite Hstrong. cbn [length Nat.ltb Nat.leb].
  unfold Prisma.verificationToken_findUnique at 1. unfold gets at 1.
  unfold bind at 1. fold token. rewrite Ht.
  destruct (verificationTokens w !! token) as [vt|] eqn:Htok.
  2:{ by rewrite updateRateLimit_then. }
  unfold bind at 1, dateNow at 1. rewrite Hk. fold now.
  destruct (now >? expires vt) eqn:Hexp.
  { unfold bind at 1.
    rewrite (verificationToken_delete_present token _ vt)
      by (cbn; by rewrite Ht).
    rewrite updateRateLimit_then. cbn [verificationTokens set_ticks].
    by rewrite Ht. }
  unfold bind at 1, Prisma.user_findUnique_id at 1, gets at 1.
  cbn [users set_ticks]. rewrite Hu.
  destruct (List.find _ (users w)) as [user|] eqn:Hfind.
  2:{ by rewrite updateRateLimit_then. }
  pose proof (find_by_id_found _ _ _ Hfind) as Hid.
  unfold bind at 1, Password.hashPassword, ret at 1.
  unfold bind at 1, dateNow at 1. cbn [ticks set_ticks].
  unfold bind at 1.
  rewrite (user_update_present (id user) _ _ _ user)
    by (cbn; by rewrite Hu, Hid).
  unfold bind at 1.
  rewrite (verificationToken_delete_present token _ vt)
    by (cbn; by rewrite Ht).
  rewrite updateRateLimit_then.
  cbn [verificationTokens users set_ticks set_users set_verificationTokens].
  unfold ret. rewrite Ht, Hu. reflexivity.
Qed.



(** After a request that went through the whole handler and was reported
    a success, the identity still has quota left. *)
Lemma underLimit_after_update_success request w0 e :
  let cfg := rateLimitConfigs.passwordReset in
  rateLimitStore w0 !! keyOf cfg request = Some e ->
  count e < maxAttempts cfg ->
  underLimit cfg (keyOf cfg request)
    (exec (updateRateLimit env request cfg true) w0).
Proof.
  intros cfg Hl Hc. split; [done|]. intros e'.
  rewrite updateRateLimit_lookup. fold cfg. rewrite Hl. cbn.
  intros [= <-]. exact Hc.
Qed.


End ResetPasswordFacts.

(* ===================================================================== *)
(** * Properties of the forgot-password handler                           *)
(* ===================================================================== *)

Section ForgotPasswordFacts.
Import RateLimit Schema ForgotPassword.

Context (env : Env).

(** The mail the handler composes for [user]. *)
Definition resetMail (address token : string) (user : User) : Mail :=
  mkMail address "Password Reset Request" (or_else (name user) "User") token.

(** What the handler does with a request that passed the gate and whose
    body holds a well-formed address. *)
Lemma forgot_POST_validated request w address :
  result (createRateLimitMiddleware env rateLimitConfigs.passwordReset request) w
    = Returned None ->
  forgotPasswordSchema env (json request) = Some address ->
  let cfg := rateLimitConfigs.passwordReset in
  let w1 := exec (checkRateLimit env request cfg) w in
  let token := randomHex env (draws w) in
  let expiry := clock env (S (S (ticks w))) + resetTokenExpiry env * 1000 in
  POST env request w =
  match List.find (fun u => String.eqb (email u) address) (users w) with
  | None => (Returned successResponse, exec (updateRateLimit env request cfg true) w1)
  | Some user =>
      let drawn := set_ticks (S (S (S (ticks w)))) (set_draws (S (draws w)) w1) in
      match verificationTokens w !! token with
      | Some _ =>
          (Returned (errorMessage "Failed to process password reset request" 500),
           drawn)
      | None =>
          let stored :=
            set_verificationTokens
              (<[token := mkVerificationToken (id user) expiry]>
                 (verificationTokens w)) drawn in
          if transportAccepts env (resetMail address token user) then
            (Returned successResponse,
             exec (updateRateLimit env request cfg true)
               (set_outbox (outbox w ++ [resetMail address token user]) stored))
          else
            (Returned (errorMessage "Failed to process password reset request" 500),
             stored)
      end
  end.
Proof.
  intros Hgate Hschema cfg w1 token expiry.
  apply middleware_passes_iff in Hgate.
  destruct (afterCheck_frame env request cfg w) as (Hl & Hu & Ht & Ho & Hd & Hk).
  fold w1 in Hl, Hu, Ht, Ho, Hd, Hk.
  unfold POST, try_catch. unfold bind at 1.
  rewrite (middleware_pass env _ _ _ Hgate).
  fold cfg w1. cbv beta iota.
  unfold requestJson. unfold bind at 1.
  destruct (json request) as [| |o] eqn:Hj; try discriminate Hschema;
    unfold ret at 1; cbv beta iota; rewrite Hschema; cbv beta iota zeta.
  unfold bind at 1, Prisma.user_findUnique_email at 1, gets at 1.
  rewrite Hu.
  destruct (List.find _ (users w)) as [user|] eqn:Hfind.
  2:{ by rewrite updateRateLimit_then. }
  unfold bind at 1, generateToken, nextRandomHex at 1. rewrite Hd. fold token.
  unfold bind at 1, dateNow at 1. cbn [ticks set_draws]. rewrite Hk. fold expiry.
  unfold bind at 1.
  destruct (verificationTokens w !! token) as [vt|] eqn:Htok.
  { rewrite (verificationToken_create_duplicate _ _ _ _ vt)
      by (cbn; by rewrite Ht).
    reflexivity. }
  rewrite verificationToken_create_fresh by (cbn; by rewrite Ht).
  unfold bind at 1, sendPasswordResetEmail. fold (resetMail address token user).
  destruct (transportAccepts env (resetMail address token user)).
  - unfold modify at 1. rewrite updateRateLimit_then. unfold ret.
    cbn [outbox verificationTokens set_verificationTokens set_ticks set_draws].
    by rewrite Ht, Ho.
  - unfold throw, ret.
    cbn [verificationTokens set_verificationTokens set_ticks set_draws].
    by rewrite Ht.
Qed.


(** A parseable body that fails the schema is answered 400 and recorded as
    a failure. *)
Lemma forgot_POST_invalid request w :
  result (createRateLimitMiddleware env rateLimitConfigs.passwordReset request) w
    = Returned None ->
  json request <> BodyMalformed ->
  forgotPasswordSchema env (json request) = None ->
  let cfg := rateLimitConfigs.passwordReset in
  POST env request w =
  (Returned (jsonResponse
               (ErrorBody "Invalid input data" None None (Some ZodIssues)) 400),
   exec (updateRateLimit env request cfg false)
        (exec (checkRateLimit env request cfg) w)).
Proof.
  intros Hgate Hjson Hschema cfg.
  apply middleware_passes_iff in Hgate.
  unfold POST, try_catch. unfold bind at 1.
  rewrite (middleware_pass env _ _ _ Hgate). cbv beta iota.
  unfold requestJson. unfold bind at 1.
  destruct (json request) as [| |o] eqn:Hj; [done| |];
    unfold ret at 1; cbv beta iota; rewrite Hschema;
    by rewrite updateRateLimit_then.
Qed.


(** ** Requests with a well-formed address never use up quota *)

Lemma countNotRaised_refl key w : countNotRaised key w w.
Proof. intros e' H. right. by exists e'. Qed.

Lemma countNotRaised_trans key w1 w2 w3 :
  countNotRaised key w1 w2 -> countNotRaised key w2 w3 ->
  countNotRaised key w1 w3.
Proof.
  intros H12 H23 e3 H3. destruct (H23 e3 H3) as [Z|(e2 & H2 & E)]; [by left|].
  destruct (H12 e2 H2) as [Z|(e1 & H1 & E')]; [left; lia|].
  right. exists e1. split; [done | lia].
Qed.

Lemma underLimit_countNotRaised config key w w' :
  underLimit config key w -> countNotRaised key w w' ->
  underLimit config key w'.
Proof.
  intros [Hpos H] Hn. split; [done|]. intros e' He'.
  destruct (Hn e' He') as [Z|(e & He & E)]; [lia|].
  rewrite E. by apply H.
Qed.

Lemma afterCheck_countNotRaised request config w :
  countNotRaised (keyOf config request) w
    (exec (checkRateLimit env request config) w).
Proof.
  intros e'. rewrite checkRateLimit_lookup. intros [= <-].
  destruct (entryAfterCheck_cases env config (keyOf config request) w) as [F|F].
  - left. by rewrite F.
  - right. eauto.
Qed.

Lemma forgot_valid_step request w address :
  let cfg := rateLimitConfigs.passwordReset in
  let key := defaultKeyGenerator request in
  underLimit cfg key w ->
  forgotPasswordSchema env (json request) = Some address ->
  exists response w',
    POST env request w = (Returned response, w') /\
    status response <> 429 /\
    countNotRaised key w w'.
Proof.
  intros cfg key Hunder Hschema.
  assert (Hgate : result (createRateLimitMiddleware env cfg request) w
                  = Returned None)
    by (by apply middleware_passes_iff, underLimit_passes).
  pose proof (afterCheck_countNotRaised request cfg w) as Hcheck.
  change (keyOf cfg request) with key in Hcheck.
  assert (Hskip : forall w0,
            rateLimitStore w0 = rateLimitStore (exec (checkRateLimit env request cfg) w) ->
            countNotRaised key w
              (exec (updateRateLimit env request cfg true) w0)).
  { intros w0 Hw0 e'.
    pose proof (updateRateLimit_lookup env request cfg true w0) as Hup.
    change (keyOf cfg request) with key in Hup. rewrite Hup, Hw0. clear Hup.
    destruct (rateLimitStore (exec _ w) !! key) as [e1|] eqn:E1;
      cbn [fmap option_fmap option_map]; [|intros [=]].
    intros [= <-]. exact (Hcheck e1 E1). }
  rewrite (forgot_POST_validated request w address Hgate Hschema). cbv zeta.
  destruct (List.find _ (users w)) as [user|].
  2:{ eexists _, _. split; [reflexivity|]. split; [done|]. by apply Hskip. }
  destruct (verificationTokens w !! _) as [vt|].
  { eexists _, _. split; [reflexivity|]. split; [done|]. exact Hcheck. }
  destruct (transportAccepts env _).
  - eexists _, _. split; [reflexivity|]. split; [done|]. by apply Hskip.
  - eexists _, _. split; [reflexivity|]. split; [done|]. exact Hcheck.
Qed.

(** C10. [passwordReset] skips successful requests and every
    forgot-password request with a well-formed address is reported as a
    success, so such requests never raise the limiter's [count]: starting
    with quota left (in particular from a fresh store), a sequence of any
    length of such requests from one identity is answered without a single
    429, and the [count] of the identity ends at 0 or where it started. *)
Theorem valid_forgot_requests_never_limited key requests : forall w,
  Forall (fun request =>
            defaultKeyGenerator request = key /\
            exists address, forgotPasswordSchema env (json request) = Some address)
         requests ->
  underLimit rateLimitConfigs.passwordReset key w ->
  skipSuccessfulRequests rateLimitConfigs.passwordReset = Some true /\
  exists responses,
    result (handleAll (POST env) requests) w = Returned responses /\
    length responses = length requests /\
    Forall (fun response => status response <> 429) responses /\
    countNotRaised key w (exec (handleAll (POST env) requests) w).
Proof.
  induction requests as [|request rest IH]; intros w Hreqs Hunder;
    (split; [reflexivity|]).
  - exists []. repeat split; [constructor | apply countNotRaised_refl].
  - inversion Hreqs as [|? ? [Hkey [address Hschema]] Hrest]; subst.
    destruct (forgot_valid_step request w address Hunder Hschema)
      as (response & w' & E & Hstatus & Hcount).
    destruct (IH w' Hrest) as (_ & responses & Er & Hlen & Hall & Hcount').
    { by eapply underLimit_countNotRaised. }
    exists (response :: responses).
    assert (Ecat : handleAll (POST env) (request :: rest) w =
                   (Returned (response :: responses),
                    exec (handleAll (POST env) rest) w')).
    { cbn [handleAll]. unfold bind at 1. rewrite E. unfold bind, exec, result in *.
      destruct (handleAll (POST env) rest w') as [[rs|] w''];
        cbn [fst snd] in *; [|discriminate]. by injection Er as ->. }
    unfold result, exec at 1. rewrite Ecat. cbn [fst snd].
    repeat split.
    + cbn. by rewrite Hlen.
    + by constructor.
    + by eapply countNotRaised_trans.
Qed.

(** The quota of this endpoint is only spent by bodies that fail the
    schema: such a request adds one to [count]. *)
Lemma forgot_invalid_request_counts request w :
  let cfg := rateLimitConfigs.passwordReset in
  let key := defaultKeyGenerator request in
  result (createRateLimitMiddleware env cfg request) w = Returned None ->
  json request <> BodyMalformed ->
  forgotPasswordSchema env (json request) = None ->
  exists e',
    rateLimitStore (exec (POST env request) w) !! key = Some e' /\
    count e' = count (entryAfterCheck env cfg key w) + 1.
Proof.
  intros cfg key Hgate Hjson Hschema. unfold exec at 1.
  rewrite (forgot_POST_invalid request w Hgate Hjson Hschema). cbn [snd].
  change key with (keyOf cfg request).
  rewrite (updateRateLimit_lookup env request cfg false).
  rewrite checkRateLimit_lookup. cbn. eauto.
Qed.

End ForgotPasswordFacts.

(* ===================================================================== *)
(** * Properties of the login handler                                     *)
(* ===================================================================== *)

Section LoginFacts.
Import RateLimit Schema Login.

Context (env : Env).

(** What the handler answers on a successful validation of credentials. *)
Definition loginSuccess (u : User) : Response :=
  jsonResponse
    (MessageBody "Credentials validated successfully"
       (Some (mkPublicUser (id u) (name u) (email u) (image u)
                           (emailVerified u) None))) 200.



End LoginFacts.

(* ===================================================================== *)
(** * Properties of the registration handler                              *)
(* ===================================================================== *)

Section RegisterFacts.
Import RateLimit Schema Register.

Context (env : Env).

(** A registration rejected by the schema or by the strength rules is
    answered 400 with the limiter exactly as the gate left it: the handler
    returns without calling [updateRateLimit]. *)
Lemma register_rejection_skips_update request w :
  let cfg := rateLimitConfigs.auth in
  result (createRateLimitMiddleware env cfg request) w = Returned None ->
  json request <> BodyMalformed ->
  (registerSchema env (json request) = None \/
   exists data, registerSchema env (json request) = Some data /\
                Password.validatePasswordStrength (reg_password data) <> []) ->
  exists response,
    POST env request w =
      (Returned response, exec (checkRateLimit env request cfg) w) /\
    status response = 400.
Proof.
  intros cfg Hgate Hjson Hrej. subst cfg.
  apply middleware_passes_iff in Hgate.
  unfold POST, try_catch. unfold bind at 1.
  rewrite (middleware_pass env _ _ _ Hgate). cbv beta iota.
  unfold requestJson. unfold bind at 1.
  destruct (json request) as [| |o] eqn:Hj; [done| |];
    unfold ret at 1; cbv beta iota.
  - eexists. split; reflexivity.
  - destruct Hrej as [->|(data & -> & Hweak)].
    + eexists. split; reflexivity.
    + cbv zeta.
      destruct (Password.validatePasswordStrength (reg_password data)); [done|].
      eexists. split; reflexivity.
Qed.

End RegisterFacts.

(* ===================================================================== *)
(** * Worked scenarios                                                    *)
(* ===================================================================== *)

Section Scenarios.
Import RateLimit Schema Scenario.

(** C4. The registration handler at work: a body rejected by the schema and
    a body rejected for a weak password are both answered 400 and leave
    [count] and [failedAttempts] of the identity at 0, while the duplicate
    address, answered 409, raises both to 1. *)
Theorem register_validation_failures_not_counted :
  let key := "10.0.0.1" in
  let untouched := mkRateLimitEntry 0 1700003600001 0 None in
  let charged := mkRateLimitEntry 1 1700003600001 1 (Some 1700000000002) in
  (registerSchema env (json malformedRegistration) = None /\
   result (Register.POST env malformedRegistration) initialWorld =
     Returned (jsonResponse
       (ErrorBody "Invalid input data" None None (Some ZodIssues)) 400) /\
   rateLimitStore (exec (Register.POST env malformedRegistration) initialWorld)
     !! key = Some untouched) /\
  (result (Register.POST env weakRegistration) initialWorld =
     Returned (jsonResponse
       (ErrorBody "Password does not meet security requirements" None None
          (Some (PasswordErrors
                   [password_uppercase; password_number; password_special])))
       400) /\
   rateLimitStore (exec (Register.POST env weakRegistration) initialWorld)
     !! key = Some untouched) /\
  (result (Register.POST env duplicateRegistration) registered =
     Returned (errorMessage "Email already registered" 409) /\
   rateLimitStore (exec (Register.POST env duplicateRegistration) registered)
     !! key = Some charged).
Proof. vm_compute. repeat split. Qed.



(** The same happens, with a working transport, when the token drawn is
    already in the table. *)
Lemma forgot_password_token_collision_reveals_registration :
  let w :=
    set_verificationTokens
      {[ randomHex env 0 := mkVerificationToken "u1" 1800000000000 ]}
      registered in
  result (ForgotPassword.POST env forgotRequest) w =
    Returned (errorMessage "Failed to process password reset request" 500) /\
  result (ForgotPassword.POST env forgotRequest) (set_users [] w) =
    Returned ForgotPassword.successResponse.
Proof. vm_compute. repeat split. Qed.





(** C10, at five requests in a row, two more than the quota of three. *)
Lemma valid_forgot_requests_never_limited_witness :
  let five := [forgotRequest; forgotRequest; forgotRequest; forgotRequest;
               forgotRequest] in
  exists responses,
    result (handleAll (ForgotPassword.POST env) five) registered
      = Returned responses /\
    length responses = 5%nat /\
    Forall (fun response => status response <> 429) responses.
Proof.
  intros five.
  destruct (valid_forgot_requests_never_limited env "10.0.0.1" five registered)
    as (_ & responses & H1 & H2 & H3 & _).
  - repeat constructor; by exists "alice@example.com".
  - split; [reflexivity|]. intros e H. discriminate H.
  - exists responses. exact (conj H1 (conj H2 H3)).
Defined.

End Scenarios.

(* ===================================================================== *)
(** * Properties of the password rules and of the form validators         *)
(* ===================================================================== *)

Section PasswordFacts.
Import Password.

(** A character class is found by [test] exactly when some character of
    the string is in it. *)
Lemma test_true_iff class s :
  test class s = true <->
  exists c, In c (list_ascii_of_string s) /\ class c = true.
Proof.
  induction s as [|a s IH]; cbn.
  - split; [discriminate | intros (c & [] & _)].
  - rewrite orb_true_iff, IH. split.
    + intros [H|(c & Hin & Hc)]; [exists a; auto | exists c; auto].
    + intros (c & [<-|Hin] & Hc); [by left | right; eauto].
Qed.

(** X1. [validatePasswordStrength] of password.ts reports a rule exactly
    when the password breaks it, each rule at most once, and so returns
    the empty list exactly for passwords of at least 8 characters with an
    uppercase letter, a lowercase letter, a digit and a special character;
    [isPasswordStrengthAcceptable] is true for exactly those. *)
Theorem validatePasswordStrength_reports_broken_rules password :
  let errors := validatePasswordStrength password in
  (In password_length errors <-> (String.length password < 8)%nat) /\
  (In password_uppercase errors <-> test isUppercase password = false) /\
  (In password_lowercase errors <-> test isLowercase password = false) /\
  (In password_number errors <-> test isDigit password = false) /\
  (In password_special errors <-> test isSpecial password = false) /\
  NoDup errors /\
  (errors = [] <->
     (8 <= String.length password)%nat /\
     test isUppercase password = true /\ test isLowercase password = true /\
     test isDigit password = true /\ test isSpecial password = true) /\
  (isPasswordStrengthAcceptable password = true <-> errors = []).
Proof.
  cbv zeta. unfold isPasswordStrengthAcceptable, validatePasswordStrength, minLength.
  rewrite <- Nat.ltb_lt, <- Nat.ltb_ge.
  destruct (String.length password <? 8)%nat,
           (test isUppercase password), (test isLowercase password),
           (test isDigit password), (test isSpecial password);
    cbn [negb app length Nat.eqb];
    repeat apply conj;
    solve [ cbn; intuition congruence
          | repeat (constructor;
                    [ intros Hin;
                      repeat (apply elem_of_cons in Hin as [Hin|Hin];
                              [discriminate Hin|]);
                      by apply elem_of_nil in Hin | ]);
            constructor ].
Qed.

End PasswordFacts.

Section ValidationFacts.
Import Password.

(** X2. The strength meter of validation.ts counts the rules met: the
    score lies between 0 and 5, score and number of feedback messages add
    up to 5, and the score is 5 exactly for the passwords that
    [validatePasswordStrength] of password.ts (the server-side check)
    accepts, which are also exactly those [passwordSchema] accepts. *)
Theorem strength_score_agrees_with_server password :
  let r := Validation.validatePasswordStrength password in
  0 <= Validation.score r <= 5 /\
  Validation.score r + Z.of_nat (length (Validation.feedback r)) = 5 /\
  (Validation.score r = 5 <-> validatePasswordStrength password = []) /\
  (Validation.passwordSchema password = true <-> Validation.score r = 5).
Proof.
  cbv zeta.
  unfold Validation.validatePasswordStrength, Validation.passwordSchema,
    validatePasswordStrength, minLength, Validation.requirement.
  rewrite Nat.ltb_antisym.
  destruct (8 <=? String.length password)%nat,
           (test isUppercase password), (test isLowercase password),
           (test isDigit password), (test isSpecial password);
    cbn; (split; [lia|]); (split; [lia|]); split; split;
    first [ done | discriminate | intros; lia ].
Qed.

(** X3. The password field validator accepts a non-empty password as soon
    as it meets three of the five rules, with a warning below five: a
    password it accepts without warning is one the server accepts, and a
    password it accepts with the warning is one the server rejects. *)
Theorem validatePasswordField_vs_server password :
  let v := ClientValidation.validatePasswordField password in
  let r := Validation.validatePasswordStrength password in
  (ClientValidation.isValid v = true <->
     password <> "" /\ 3 <= Validation.score r) /\
  (ClientValidation.isValid v = true /\ ClientValidation.warning v = None <->
     validatePasswordStrength password = []) /\
  (ClientValidation.warning v <> None ->
     ClientValidation.isValid v = true /\
     validatePasswordStrength password <> []).
Proof.
  cbv zeta.
  pose proof (strength_score_agrees_with_server password) as (Hb & _ & H5 & _).
  cbv zeta in Hb, H5.
  unfold ClientValidation.validatePasswordField, ClientValidation.isEmpty.
  destruct (String.eqb_spec password "") as [->|Hne].
  - cbn. split; [|split].
    + split; [discriminate | by intros [? _]].
    + split; [by intros [? _] | discriminate].
    + done.
  - set (r := Validation.validatePasswordStrength password) in *.
    destruct (Z.ltb_spec (Validation.score r) 3) as [L3|L3];
      [|destruct (Z.ltb_spec (Validation.score r) 5) as [L5|L5]]; cbn.
    + split; [|split].
      * split; [discriminate | intros [_ ?]; lia].
      * split; [by intros [? _] | intros H; apply H5 in H; lia].
      * done.
    + split; [|split].
      * split; [done | done].
      * split; [by intros [_ ?] | intros H; apply H5 in H; lia].
      * intros _. split; [done|]. intros H. apply H5 in H. lia.
    + split; [|split].
      * split; [done | done].
      * split; [intros _; apply H5; lia | done].
      * done.
Qed.

Lemma isEmpty_length s :
  ClientValidation.isEmpty s = (String.length s =? 0)%nat.
Proof. by destruct s. Qed.

(** X4. The name field validator and [nameSchema] state the same rule: a
    name is valid exactly when it has 2 to 50 characters, all of them
    letters or white space; such a name also passes the [min(2)] test of
    the registration endpoint. *)
Theorem validateNameField_agrees_with_schema name :
  ClientValidation.isValid (ClientValidation.validateNameField name)
    = Validation.nameSchema name /\
  (Validation.nameSchema name = true <->
     (2 <= String.length name <= 50)%nat /\
     Validation.allLettersOrSpaces name = true) /\
  (Validation.nameSchema name = true -> Schema.min 2 name = true).
Proof.
  unfold ClientValidation.validateNameField, Validation.nameSchema,
    Validation.lettersAndSpacesOnly, Schema.min.
  rewrite isEmpty_length. split; [|split].
  - destruct (Nat.eqb_spec (String.length name) 0) as [E|E];
      destruct (Nat.ltb_spec (String.length name) 2) as [L2|L2];
      destruct (Nat.ltb_spec 50 (String.length name)) as [L50|L50];
      destruct (Nat.leb_spec 2 (String.length name)) as [G2|G2];
      destruct (Nat.leb_spec (String.length name) 50) as [G50|G50];
      destruct (Nat.ltb_spec 0 (String.length name)) as [P|P];
      try lia; try reflexivity.
    by destruct (Validation.allLettersOrSpaces name).
  - rewrite !andb_true_iff, !Nat.leb_le, Nat.ltb_lt. intuition lia.
  - rewrite !andb_true_iff. tauto.
Qed.

(** X5. Form data accepted by the registration form's schema is accepted
    by the registration endpoint: its schema accepts the same object and
    the password passes the strength rules. *)
Theorem client_registration_accepted_by_server env o d :
  Validation.registerSchema env o = Some d ->
  Schema.registerSchema env (BodyObject o) =
    Some (Schema.mkRegisterData (Validation.form_name d)
            (Validation.form_email d) (Validation.form_password d)) /\
  validatePasswordStrength (Validation.form_password d) = [].
Proof.
  unfold Validation.registerSchema, Schema.registerSchema.
  destruct (Schema.stringMember o "name") as [n|]; [|done].
  destruct (Schema.stringMember o "email") as [e|]; [|done].
  destruct (Schema.stringMember o "password") as [p|]; [|done].
  destruct (Schema.stringMember o "confirmPassword") as [c|]; [|done].
  destruct (Validation.nameSchema n) eqn:Hn; [|done].
  destruct (Validation.emailSchema env e) eqn:He; [|done].
  destruct (Validation.passwordSchema p) eqn:Hp; [|done].
  cbn [andb]. destruct (_ && _); [|done]. intros [= <-].
  cbn [Validation.form_name Validation.form_email Validation.form_password].
  apply validateNameField_agrees_with_schema in Hn.
  unfold Validation.emailSchema in He. apply andb_true_iff in He as [He _].
  pose proof (strength_score_agrees_with_server p) as (_ & _ & H5 & Hs).
  cbv zeta in H5, Hs. rewrite Hn, He. cbn [andb].
  assert (Schema.min 8 p = true) as ->.
  { unfold Validation.passwordSchema in Hp. unfold Schema.min.
    by repeat (apply andb_true_iff in Hp as [Hp _]). }
  split; [done|]. by apply H5, Hs.
Qed.

End ValidationFacts.

(* ===================================================================== *)
(** * Further properties of src/lib/rate-limit.ts                         *)
(* ===================================================================== *)

Section RateLimitMore.
Import RateLimit.

Context (env : Env).

(** X6. The identity of a request is its [x-forwarded-for] header when
    that is non-empty, else its [x-real-ip] header when that is non-empty,
    else ["unknown"]; it is never the empty string, so all requests
    without a usable header share the one identity ["unknown"]. *)
Theorem defaultKeyGenerator_precedence request :
  let forwarded := headers request !! "x-forwarded-for" in
  let real := headers request !! "x-real-ip" in
  let key := defaultKeyGenerator request in
  key <> "" /\
  (forall s, forwarded = Some s -> s <> "" -> key = s) /\
  (forwarded = None \/ forwarded = Some "" ->
   forall s, real = Some s -> s <> "" -> key = s) /\
  (forwarded = None \/ forwarded = Some "" ->
   real = None \/ real = Some "" -> key = "unknown").
Proof.
  cbv zeta. unfold defaultKeyGenerator, or_else.
  destruct (headers request !! "x-forwarded-for") as [f|];
    destruct (headers request !! "x-real-ip") as [r|];
    repeat match goal with
    | |- context [String.eqb ?a ""] => destruct (String.eqb_spec a "")
    end; subst;
    (split; [done|]); (split; [by intros ? [= <-]|]);
    split; intros; repeat match goal with
                   | H : _ \/ _ |- _ => destruct H
                   end; congruence.
Qed.

Lemma cleanup_rateLimit_survives w k e :
  rateLimitStore (exec (cleanupExpiredEntries env) w) !! k = Some e <->
  rateLimitStore w !! k = Some e /\ clock env (ticks w) <= resetAt e.
Proof.
  rewrite cleanup_rateLimit_lookup.
  destruct (rateLimitStore w !! k) as [e0|].
  - destruct (Z.gtb_spec (clock env (ticks w)) (resetAt e0)).
    + split; [discriminate|]. intros [[= ->] ?]. lia.
    + split; [intros [= ->]; split; [done|lia] | by intros [? _]].
  - split; [discriminate | by intros [? _]].
Qed.

Lemma cleanup_failedLogin_survives w k f :
  failedLoginStore (exec (cleanupExpiredEntries env) w) !! k = Some f <->
  failedLoginStore w !! k = Some f /\
  clock env (ticks w) - lastAttempt f <= 24 * 60 * 60 * 1000.
Proof.
  rewrite cleanup_failedLogin_lookup.
  destruct (failedLoginStore w !! k) as [f0|].
  - destruct (Z.gtb_spec (clock env (ticks w) - lastAttempt f0)
                         (24 * 60 * 60 * 1000)).
    + split; [discriminate|]. intros [[= ->] ?]. lia.
    + split; [intros [= ->]; split; [done|lia] | by intros [? _]].
  - split; [discriminate | by intros [? _]].
Qed.

(** X7. The sweep deletes exactly the expired entries: a rate-limit entry
    survives, unchanged, exactly when the clock reading is not past its
    [resetAt], a failed-login entry exactly when its last attempt is at
    most 24 hours old; the database is not touched. *)
Theorem cleanupExpiredEntries_sweeps_exactly w :
  let now := clock env (ticks w) in
  let w' := exec (cleanupExpiredEntries env) w in
  (forall k e, rateLimitStore w' !! k = Some e <->
               rateLimitStore w !! k = Some e /\ now <= resetAt e) /\
  (forall k f, failedLoginStore w' !! k = Some f <->
               failedLoginStore w !! k = Some f /\
               now - lastAttempt f <= 24 * 60 * 60 * 1000) /\
  users w' = users w /\ verificationTokens w' = verificationTokens w /\
  outbox w' = outbox w.
Proof.
  cbv zeta. split; [|split; [|done]].
  - apply cleanup_rateLimit_survives.
  - apply cleanup_failedLogin_survives.
Qed.

(** X8. A check on behalf of one identity never creates, resets or changes
    the entry of another identity: another identity's entry is afterwards
    what it was, unless the sweep found it expired and removed it. The
    failed-login store is only swept and the database is not touched. *)
Theorem checkRateLimit_other_identities request config w :
  let w' := exec (checkRateLimit env request config) w in
  (forall k e, k <> keyOf config request ->
     (rateLimitStore w' !! k = Some e <->
      rateLimitStore w !! k = Some e /\ clock env (ticks w) <= resetAt e)) /\
  failedLoginStore w' = failedLoginStore (exec (cleanupExpiredEntries env) w) /\
  users w' = users w /\ verificationTokens w' = verificationTokens w /\
  outbox w' = outbox w.
Proof.
  cbv zeta.
  replace (exec (checkRateLimit env request config) w)
    with (snd (checkRateLimit env request config w)) by reflexivity.
  rewrite checkRateLimit_run.
  cbn [snd rateLimitStore failedLoginStore users verificationTokens outbox].
  split; [|done]. intros k e Hk. rewrite lookup_insert_ne by done.
  apply cleanup_rateLimit_survives.
Qed.

(** ** Counted requests use up the quota *)



(** ** The login delay *)

Lemma checkLoginDelay_run request w :
  let key := defaultKeyGenerator request in
  let now := clock env (S (ticks w)) in
  checkLoginDelay env request w =
  (Returned
     match failedLoginStore (exec (cleanupExpiredEntries env) w) !! key with
     | Some entry =>
         if now <? nextAllowedAt entry
         then mkDelayResult true (nextAllowedAt entry - now) (nextAllowedAt entry)
         else mkDelayResult false 0 now
     | None => mkDelayResult false 0 now
     end,
   set_ticks (S (S (ticks w))) (exec (cleanupExpiredEntries env) w)).
Proof.
  cbv zeta. unfold checkLoginDelay, bind, exec. rewrite cleanup_run.
  unfold dateNow, gets. cbv beta iota. cbn [snd ticks failedLoginStore set_ticks].
  destruct (_ !! _) as [e|]; [destruct (_ <? _)|]; reflexivity.
Qed.






(** X14. The progressive delay never decreases as failures accumulate,
    lies between 0 and 30 seconds, and is 0 only without failures. *)
Theorem calculateProgressiveDelay_monotone_bounded (a b : Z) :
  (a <= b -> calculateProgressiveDelay a <= calculateProgressiveDelay b) /\
  0 <= calculateProgressiveDelay a <= 30000 /\
  (calculateProgressiveDelay a = 0 <-> a <= 0).
Proof.
  assert (Hval : forall x,
            (x <= 0 /\ calculateProgressiveDelay x = 0) \/
            (x = 1 /\ calculateProgressiveDelay x = 1000) \/
            (x = 2 /\ calculateProgressiveDelay x = 2000) \/
            (x = 3 /\ calculateProgressiveDelay x = 4000) \/
            (x = 4 /\ calculateProgressiveDelay x = 8000) \/
            (x = 5 /\ calculateProgressiveDelay x = 16000) \/
            (5 < x /\ calculateProgressiveDelay x = 30000)).
  { intros x. unfold calculateProgressiveDelay.
    destruct (Z.leb_spec x 0); [by left|].
    destruct (Z.leb_spec x 5); [|right; right; right; right; right; right; done].
    assert (x = 1 \/ x = 2 \/ x = 3 \/ x = 4 \/ x = 5) as Hx by lia.
    destruct Hx as [->|[->|[->|[->| ->]]]]; cbn; tauto. }
  destruct (Hval a) as [[? ->]|[[? ->]|[[? ->]|[[? ->]|[[? ->]|[[? ->]|[? ->]]]]]]];
    (split; [|split; [lia|split; intros; lia]]);
    intros Hab;
    destruct (Hval b) as [[? ->]|[[? ->]|[[? ->]|[[? ->]|[[? ->]|[[? ->]|[? ->]]]]]]];
    lia.
Qed.

(** ** The rejections *)

(** [Math.ceil(ms / 1000)] is the least number of whole seconds that
    covers [ms]. *)
Lemma ceilSeconds_least ms :
  1000 * (ceilSeconds ms - 1) < ms <= 1000 * ceilSeconds ms.
Proof.
  unfold ceilSeconds.
  pose proof (Z.div_mod (- ms) 1000 ltac:(lia)).
  pose proof (Z.mod_pos_bound (- ms) 1000 ltac:(lia)). lia.
Qed.

(** X15. A closed gate ([count >= maxAttempts] for the entry the check
    works with) is answered 429 with code [RATE_LIMIT_EXCEEDED]; the
    headers carry the limit, a remaining quota of 0 and the reset instant,
    and [retryAfter], in the body and in the header, is the least number
    of whole seconds from the respective clock reading to [resetAt]. *)
Theorem rate_limit_rejection request config w :
  let e := entryAfterCheck env config (keyOf config request) w in
  let now1 := clock env (S (S (ticks w))) in
  let now2 := clock env (S (S (S (ticks w)))) in
  count e >= maxAttempts config ->
  exists retry1 retry2,
    result (createRateLimitMiddleware env config request) w =
      Returned (Some (mkResponse
        (ErrorBody "Too many requests. Please try again later."
                   (Some "RATE_LIMIT_EXCEEDED") (Some retry1) None)
        429
        [("X-RateLimit-Limit", HNumber (maxAttempts config));
         ("X-RateLimit-Remaining", HNumber 0);
         ("X-RateLimit-Reset", HInstant (resetAt e));
         ("Retry-After", HNumber retry2)])) /\
    1000 * (retry1 - 1) < resetAt e - now1 <= 1000 * retry1 /\
    1000 * (retry2 - 1) < resetAt e - now2 <= 1000 * retry2.
Proof.
  intros e now1 now2 Hfull.
  unfold result, createRateLimitMiddleware, bind.
  rewrite checkRateLimit_run. cbn [isLimited remaining check_resetAt].
  fold e. rewrite geb_true by done. unfold dateNow, ret.
  cbn [fst ticks set_ticks]. fold now1 now2.
  rewrite Z.max_l by lia.
  eexists _, _. split; [reflexivity|]. split; apply ceilSeconds_least.
Qed.

Lemma delay_gate_closed request w e :
  let key := defaultKeyGenerator request in
  let now := clock env (S (ticks w)) in
  let seconds := ceilSeconds (nextAllowedAt e - now) in
  failedLoginStore w !! key = Some e ->
  clock env (ticks w) - lastAttempt e <= 24 * 60 * 60 * 1000 ->
  now < nextAllowedAt e ->
  createLoginDelayMiddleware env request w =
    (Returned (Some (mkResponse
       (ErrorBody "Too many failed login attempts. Please try again later."
                  (Some "LOGIN_DELAY") (Some seconds) None)
       429 [("Retry-After", HNumber seconds)])),
     set_ticks (S (S (ticks w))) (exec (cleanupExpiredEntries env) w)) /\
  1 <= seconds.
Proof.
  intros key now seconds He Hfresh Hlt.
  unfold createLoginDelayMiddleware, bind.
  rewrite checkLoginDelay_run. fold key now.
  rewrite (proj2 (cleanup_failedLogin_survives w key e)) by done.
  rewrite (proj2 (Z.ltb_lt _ _)) by done. cbn [isDelayed delayMs].
  split; [reflexivity|].
  pose proof (ceilSeconds_least (nextAllowedAt e - now)). subst seconds. lia.
Qed.

(** X16. A delayed identity is answered 429 with code [LOGIN_DELAY] and a
    [retryAfter], the same in body and header, of at least one second: the
    least number of whole seconds covering the time left. *)
Theorem login_delay_rejection request w e :
  let key := defaultKeyGenerator request in
  let now := clock env (S (ticks w)) in
  failedLoginStore w !! key = Some e ->
  clock env (ticks w) - lastAttempt e <= 24 * 60 * 60 * 1000 ->
  now < nextAllowedAt e ->
  exists retry,
    result (createLoginDelayMiddleware env request) w =
      Returned (Some (mkResponse
        (ErrorBody "Too many failed login attempts. Please try again later."
                   (Some "LOGIN_DELAY") (Some retry) None)
        429 [("Retry-After", HNumber retry)])) /\
    1 <= retry /\
    1000 * (retry - 1) < nextAllowedAt e - now <= 1000 * retry.
Proof.
  intros key now He Hfresh Hlt.
  destruct (delay_gate_closed request w e He Hfresh Hlt) as [E Hpos].
  eexists. unfold result. rewrite E. split; [reflexivity|].
  split; [exact Hpos | apply ceilSeconds_least].
Qed.

(** X17. The limiter keeps one entry per identity, not per endpoint
    class: a failure counted under one configuration is seen by a check
    under any other configuration that derives the identity the same way.
    Inside the window the check under [config2] works with the [count]
    raised under [config1]. *)
Theorem limiter_entry_is_shared_across_configs request config1 config2 w e :
  let key := keyOf config1 request in
  let w1 := exec (updateRateLimit env request config1 false) w in
  keyOf config2 request = key ->
  truthy (skipFailedRequests config1) = false ->
  rateLimitStore w !! key = Some e ->
  clock env (ticks w1) <= resetAt e ->
  clock env (S (ticks w1)) <= resetAt e ->
  result (checkRateLimit env request config2) w1 =
    Returned (mkCheckResult (count e + 1 >=? maxAttempts config2)
                (Z.max 0 (maxAttempts config2 - (count e + 1)))
                (resetAt e)).
Proof.
  intros key w1 Hkey Hskip He H0 H1.
  assert (He1 : rateLimitStore w1 !! key =
                Some (entryAfterUpdate config1 false (clock env (ticks w)) e)).
  { subst w1. unfold key. rewrite updateRateLimit_lookup. fold key.
    by rewrite He. }
  unfold result. rewrite checkRateLimit_run. cbn [fst]. rewrite Hkey.
  unfold entryAfterCheck. rewrite He1.
  unfold entryAfterUpdate at 1 2. cbn [resetAt].
  rewrite !gtb_false by done. cbn [orb].
  unfold entryAfterUpdate, countsAgainstQuota. rewrite Hskip. reflexivity.
Qed.

End RateLimitMore.

(* ===================================================================== *)
(** * Further properties of the four handlers                             *)
(* ===================================================================== *)

(** The database ([users], [verificationTokens]) and the mails sent are
    the same in [w'] as in [w]. *)
Definition sameDatabase (w w' : World) : Prop :=
  users w' = users w /\
  verificationTokens w' = verificationTokens w /\
  outbox w' = outbox w.

Section HandlersMore.
Import RateLimit Schema.

Context (env : Env).

Lemma sameDatabase_refl w : sameDatabase w w.
Proof. by repeat split. Qed.

Lemma sameDatabase_trans w1 w2 w3 :
  sameDatabase w1 w2 -> sameDatabase w2 w3 -> sameDatabase w1 w3.
Proof. intros (?&?&?) (?&?&?). repeat split; congruence. Qed.

Lemma sameDatabase_check request config w :
  sameDatabase w (exec (checkRateLimit env request config) w).
Proof.
  destruct (afterCheck_frame env request config w) as (_ & ? & ? & ? & _).
  by repeat split.
Qed.

Lemma sameDatabase_update request config success w :
  sameDatabase w (exec (updateRateLimit env request config success) w).
Proof.
  destruct (updateRateLimit_frame env request config success w)
    as (_ & ? & ? & ? & _).
  by repeat split.
Qed.

Lemma sameDatabase_record request w :
  sameDatabase w (exec (recordFailedLogin env request) w).
Proof. unfold exec. rewrite recordFailedLogin_run. by repeat split. Qed.

Lemma sameDatabase_delayGate request w :
  sameDatabase w (exec (createLoginDelayMiddleware env request) w).
Proof.
  destruct (loginDelayMiddleware_run env request w) as [r E].
  unfold exec. rewrite E. by repeat split.
Qed.

(** The two outcomes of the gate. *)
Lemma middleware_cases request config w :
  (exists response,
     createRateLimitMiddleware env config request w =
       (Returned (Some response),
        set_ticks (S (S (S (S (ticks w)))))
          (exec (checkRateLimit env request config) w)) /\
     status response = 429 /\
     count (entryAfterCheck env config (keyOf config request) w)
       >= maxAttempts config) \/
  (createRateLimitMiddleware env config request w =
     (Returned None, exec (checkRateLimit env request config) w) /\
   count (entryAfterCheck env config (keyOf config request) w)
     < maxAttempts config).
Proof.
  destruct (Z.lt_ge_cases
              (count (entryAfterCheck env config (keyOf config request) w))
              (maxAttempts config)) as [L|L].
  - right. split; [by apply middleware_pass | done].
  - left. destruct (middleware_limited env request config w)
      as (r1 & r2 & l & r & E); [lia|].
    eexists. split; [exact E|]. split; [reflexivity | lia].
Qed.



(** What a handler that starts with the gate does when the gate is
    closed. *)
Lemma closed_gate_run config request (k : M Response) (h : M Response) w
    response :
  createRateLimitMiddleware env config request w =
    (Returned (Some response),
     set_ticks (S (S (S (S (ticks w)))))
       (exec (checkRateLimit env request config) w)) ->
  try_catch
    (let! rateLimitResponse := createRateLimitMiddleware env config request in
     match rateLimitResponse with
     | Some response => ret response
     | None => k
     end) h w =
  (Returned response,
   set_ticks (S (S (S (S (ticks w)))))
     (exec (checkRateLimit env request config) w)).
Proof. intros E. unfold try_catch, bind. by rewrite E. Qed.

(** What a handler with a [catch] that only builds a response does with a
    body that is not JSON, once the gate is passed. *)
Lemma malformed_body_run config request (k : Body -> M Response)
    (fallback : Response) w w1 :
  createRateLimitMiddleware env config request w = (Returned None, w1) ->
  json request = BodyMalformed ->
  try_catch
    (let! rateLimitResponse := createRateLimitMiddleware env config request in
     match rateLimitResponse with
     | Some response => ret response
     | None => let! body := requestJson request in k body
     end) (ret fallback) w =
  (Returned fallback, w1).
Proof.
  intros E Hj. unfold try_catch, bind. rewrite E. unfold requestJson.
  by rewrite Hj.
Qed.

(** X19. Once the entry of an identity holds [count >= maxAttempts] and
    its window is open, the handler answers 429 whatever the payload
    (valid, invalid or not even JSON), and neither the database nor the
    outbox nor the entry changes: registration and login at 5, the two
    password-reset handlers at 3. *)
Theorem closed_gate_rejects_any_payload request w e :
  let key := defaultKeyGenerator request in
  let blocked (handler : M Response) :=
    (exists r, result handler w = Returned r /\ status r = 429) /\
    sameDatabase w (exec handler w) /\
    rateLimitStore (exec handler w) !! key = Some e in
  rateLimitStore w !! key = Some e ->
  clock env (ticks w) <= resetAt e ->
  clock env (S (ticks w)) <= resetAt e ->
  (count e >= 5 ->
     blocked (Register.POST env request) /\
     blocked (Login.POST env request)) /\
  (count e >= 3 ->
     blocked (ForgotPassword.POST env request) /\
     blocked (ResetPassword.POST env request)).
Proof.
  intros key blocked He H0 H1.
  assert (Hentry : forall config, keyGenerator config = None ->
            entryAfterCheck env config (keyOf config request) w = e).
  { intros config Hg. unfold keyOf. rewrite Hg. fold key.
    unfold entryAfterCheck. rewrite He. by rewrite !gtb_false by done. }
  assert (Hrun : forall config (k h : M Response),
            keyGenerator config = None -> count e >= maxAttempts config ->
            blocked (try_catch
              (let! rateLimitResponse :=
                 createRateLimitMiddleware env config request in
               match rateLimitResponse with
               | Some response => ret response
               | None => k
               end) h)).
  { intros config k h Hg Hfull.
    destruct (middleware_cases request config w)
      as [(response & E & Hs & _)|[_ L]]; [|rewrite Hentry in L by done; lia].
    pose proof (closed_gate_run config request k h w response E) as Erun.
    unfold blocked, result, exec. rewrite Erun. cbn [fst snd].
    split; [by exists response|]. split.
    - apply (sameDatabase_check request config w).
    - cbn [rateLimitStore set_ticks].
      pose proof (checkRateLimit_lookup env request config w) as Hl.
      rewrite Hentry in Hl by done. unfold keyOf in Hl. by rewrite Hg in Hl. }
  split; intros Hfull; split; apply Hrun; try done; cbn; lia.
Qed.

(** ** reset-password *)

Definition resetSucceeded : Response :=
  jsonResponse (MessageBody "Password has been reset successfully" None) 200.

(** The three ways a request is turned down before the token is looked
    up. *)
Lemma reset_POST_early request w :
  let cfg := rateLimitConfigs.passwordReset in
  let w1 := exec (checkRateLimit env request cfg) w in
  result (createRateLimitMiddleware env cfg request) w = Returned None ->
  (json request = BodyMalformed ->
     ResetPassword.POST env request w =
       (Returned (errorMessage "Failed to reset password" 500), w1)) /\
  (json request <> BodyMalformed ->
   resetPasswordSchema (json request) = None ->
     ResetPassword.POST env request w =
       (Returned (jsonResponse
          (ErrorBody "Invalid input data" None None (Some ZodIssues)) 400),
        exec (updateRateLimit env request cfg false) w1)) /\
  (forall data, resetPasswordSchema (json request) = Some data ->
     Password.validatePasswordStrength (reset_password data) <> [] ->
     ResetPassword.POST env request w =
       (Returned (jsonResponse
          (ErrorBody "Password does not meet security requirements" None None
             (Some (PasswordErrors
                      (Password.validatePasswordStrength (reset_password data)))))
          400),
        exec (updateRateLimit env request cfg false) w1)).
Proof.
  intros cfg w1 Hgate. apply middleware_passes_iff in Hgate.
  assert (E : ResetPassword.POST env request w =
    try_catch
      (let! rateLimitResponse := createRateLimitMiddleware env cfg request in
       match rateLimitResponse with
       | Some response => ret response
       | None => _
       end) (ret (errorMessage "Failed to reset password" 500)) w)
    by reflexivity.
  unfold try_catch in E. unfold bind at 1 in E.
  rewrite (middleware_pass env _ _ _ Hgate) in E. fold w1 in E.
  cbv beta iota in E. unfold requestJson in E. unfold bind at 1 in E.
  repeat split.
  - intros Hj. rewrite Hj in E. exact E.
  - intros Hj Hs. rewrite E.
    destruct (json request) as [| |o]; [done| |];
      unfold ret at 1; cbv beta iota; rewrite Hs;
      by rewrite updateRateLimit_then.
  - intros data Hs Hweak. rewrite E.
    destruct (json request) as [| |o]; try discriminate Hs;
      unfold ret at 1; cbv beta iota; rewrite Hs; cbv beta iota zeta.
    destruct (Password.validatePasswordStrength (reset_password data));
      [done|]. cbn [length Nat.ltb Nat.leb].
    by rewrite updateRateLimit_then.
Qed.

(** X20. reset-password fails closed: whatever the request, the users
    table is changed only by a request answered 200 "Password has been
    reset successfully"; the handler never adds or alters a token row and
    never sends mail. *)
Theorem reset_password_fails_closed request w :
  let w' := exec (ResetPassword.POST env request) w in
  (result (ResetPassword.POST env request) w = Returned resetSucceeded \/
   users w' = users w) /\
  (forall t vt, verificationTokens w' !! t = Some vt ->
                verificationTokens w !! t = Some vt) /\
  outbox w' = outbox w.
Proof.
  intros w'. subst w'. unfold result, exec.
  set (cfg := rateLimitConfigs.passwordReset).
  pose proof (sameDatabase_check request cfg w) as Hc.
  assert (Hsame : forall (r : Response) w0,
            sameDatabase w w0 ->
            (Returned r = Returned resetSucceeded \/ users w0 = users w) /\
            (forall t vt, verificationTokens w0 !! t = Some vt ->
                          verificationTokens w !! t = Some vt) /\
            outbox w0 = outbox w).
  { intros r w0 (Hu & Ht & Ho). rewrite Ht. by repeat split; [right|..]. }
  destruct (middleware_cases request cfg w) as [(response & E & _)|[E L]].
  { unfold ResetPassword.POST. rewrite (closed_gate_run _ _ _ _ _ _ E).
    cbn [fst snd]. by apply Hsame. }
  assert (Hgate : result (createRateLimitMiddleware env cfg request) w
                  = Returned None) by (by apply middleware_passes_iff).
  destruct (reset_POST_early request w Hgate) as (Emal & Einv & Eweak).
  destruct (json request) as [| |o] eqn:Hj.
  { rewrite Emal by done. cbn [fst snd]. by apply Hsame. }
  { rewrite Einv by done. cbn [fst snd]. apply Hsame.
    eapply sameDatabase_trans; [exact Hc | apply sameDatabase_update]. }
  destruct (resetPasswordSchema (BodyObject o)) as [data|] eqn:Hs.
  2:{ rewrite Einv by done. cbn [fst snd]. apply Hsame.
      eapply sameDatabase_trans; [exact Hc | apply sameDatabase_update]. }
  destruct (Password.validatePasswordStrength (reset_password data)) eqn:Hstr.
  2:{ rewrite (Eweak data) by (done || by rewrite Hstr). cbn [fst snd].
      apply Hsame.
      eapply sameDatabase_trans; [exact Hc | apply sameDatabase_update]. }
  rewrite <- Hj in Hs.
  rewrite (POST_validated env request w data Hgate Hs Hstr). cbv zeta.
  destruct Hc as (Hu & Ht & Ho).
  destruct (verificationTokens w !! reset_token data) as [vt|] eqn:Htok.
  2:{ cbn [fst snd]. apply Hsame.
      eapply sameDatabase_trans; [|apply sameDatabase_update]. by repeat split. }
  destruct (_ >? expires vt).
  { cbn [fst snd].
    match goal with |- context [exec (updateRateLimit ?a ?b ?c ?d) ?w0] =>
      destruct (sameDatabase_update b c d w0) as (-> & -> & ->) end.
    cbn [users verificationTokens outbox set_verificationTokens set_ticks].
    split; [by right|]. split; [|done].
    intros t vt'. rewrite lookup_delete_Some. by intros [_ ?]. }
  destruct (List.find _ (users w)) as [owner|].
  2:{ cbn [fst snd]. apply Hsame.
      eapply sameDatabase_trans; [|apply sameDatabase_update]. by repeat split. }
  cbn [fst snd]. split; [by left|].
  match goal with |- context [exec (updateRateLimit ?a ?b ?c ?d) ?w0] =>
    destruct (sameDatabase_update b c d w0) as (_ & -> & ->) end.
  cbn [verificationTokens outbox set_verificationTokens set_users set_ticks].
  split; [|done]. intros t vt'. rewrite lookup_delete_Some. by intros [_ ?].
Qed.

Lemma map_relates {A} (R : A -> A -> Prop) (f : A -> A) (l : list A) :
  (forall a, R a (f a)) -> Forall2 R l (map f l).
Proof. intros H. induction l; cbn; by constructor. Qed.

(** X21. A successful reset rewrites the users table row by row: every
    row keeps its id and its address; the rows with the owner's id get the
    bcrypt hash of the new password (never the password itself) and the
    time of the update; every other row is left exactly as it was. *)
Theorem reset_password_updates_only_the_owner request w data vt owner :
  let w' := exec (ResetPassword.POST env request) w in
  result (createRateLimitMiddleware env rateLimitConfigs.passwordReset request) w
    = Returned None ->
  resetPasswordSchema (json request) = Some data ->
  Password.validatePasswordStrength (reset_password data) = [] ->
  verificationTokens w !! reset_token data = Some vt ->
  clock env (S (S (ticks w))) <= expires vt ->
  List.find (fun u => String.eqb (id u) (identifier vt)) (users w) = Some owner ->
  id owner = identifier vt /\
  Forall2
    (fun before after =>
       id after = id before /\ email after = email before /\
       name after = name before /\
       (id before <> id owner -> after = before) /\
       (id before = id owner ->
          password after = bcrypt_hash env (reset_password data) /\
          updatedAt after = clock env (S (S (S (ticks w))))))
    (users w) (users w').
Proof.
  intros w' Hgate Hschema Hstrong Htok Hexp Hown. subst w'.
  split; [by eapply find_by_id_found|].
  unfold exec. rewrite (POST_validated env request w data Hgate Hschema Hstrong).
  cbv zeta. rewrite Htok, (gtb_false _ _ Hexp), Hown. cbn [snd].
  match goal with |- context [exec (updateRateLimit ?a ?b ?c ?d) ?w0] =>
    destruct (sameDatabase_update b c d w0) as (-> & _) end.
  cbn [users set_verificationTokens set_users].
  apply map_relates. intros u.
  destruct (String.eqb_spec (id u) (id owner)) as [E|E]; cbn.
  - repeat split; done.
  - repeat split; done.
Qed.


(** ** forgot-password *)

(** X23. forgot-password never revokes: whatever the request, every token
    row present before is present, unchanged, afterwards (a new token is
    added beside the live ones, never in place of one), and the users
    table is not touched. *)
Theorem forgot_password_never_revokes request w :
  let w' := exec (ForgotPassword.POST env request) w in
  users w' = users w /\
  (forall t vt, verificationTokens w !! t = Some vt ->
                verificationTokens w' !! t = Some vt) /\
  (outbox w' = outbox w \/ exists mail, outbox w' = (outbox w ++ [mail])%list).
Proof.
  intros w'. subst w'. unfold exec.
  set (cfg := rateLimitConfigs.passwordReset).
  pose proof (sameDatabase_check request cfg w) as Hc.
  assert (Hsame : forall w0,
            sameDatabase w w0 ->
            users w0 = users w /\
            (forall t vt, verificationTokens w !! t = Some vt ->
                          verificationTokens w0 !! t = Some vt) /\
            (outbox w0 = outbox w \/
             exists mail, outbox w0 = (outbox w ++ [mail])%list)).
  { intros w0 (Hu & Ht & Ho). split; [done|].
    split; [intros; by rewrite Ht | by left]. }
  destruct (middleware_cases request cfg w) as [(response & E & _)|[E L]].
  { unfold ForgotPassword.POST. rewrite (closed_gate_run _ _ _ _ _ _ E).
    cbn [snd]. by apply Hsame. }
  assert (Hgate : result (createRateLimitMiddleware env cfg request) w
                  = Returned None) by (by apply middleware_passes_iff).
  destruct (json request) as [| |o] eqn:Hj.
  { unfold ForgotPassword.POST.
    rewrite (malformed_body_run _ _ _ _ _ _ E Hj). cbn [snd]. by apply Hsame. }
  { rewrite (forgot_POST_invalid env request w Hgate) by (by rewrite Hj).
    cbn [snd]. apply Hsame.
    eapply sameDatabase_trans; [exact Hc | apply sameDatabase_update]. }
  destruct (forgotPasswordSchema env (BodyObject o)) as [address|] eqn:Hs.
  2:{ rewrite (forgot_POST_invalid env request w Hgate) by (by rewrite Hj).
      cbn [snd]. apply Hsame.
      eapply sameDatabase_trans; [exact Hc | apply sameDatabase_update]. }
  rewrite <- Hj in Hs.
  rewrite (forgot_POST_validated env request w address Hgate Hs). cbv zeta.
  destruct Hc as (Hu & Ht & Ho).
  destruct (List.find _ (users w)) as [user|].
  2:{ cbn [snd]. apply Hsame.
      eapply sameDatabase_trans; [|apply sameDatabase_update]. by repeat split. }
  destruct (verificationTokens w !! randomHex env (draws w)) as [vt0|] eqn:Hfresh.
  { cbn [snd]. apply Hsame. by repeat split. }
  assert (Hkeep : forall t vt x,
            verificationTokens w !! t = Some vt ->
            <[randomHex env (draws w) := x]> (verificationTokens w) !! t
              = Some vt).
  { intros t vt x Ht'. rewrite lookup_insert_ne; [done|].
    intros <-. rewrite Hfresh in Ht'. discriminate. }
  destruct (transportAccepts env _).
  - cbn [snd].
    match goal with |- context [exec (updateRateLimit ?a ?b ?c ?d) ?w0] =>
      destruct (sameDatabase_update b c d w0) as (-> & -> & ->) end.
    cbn [users verificationTokens outbox set_outbox set_verificationTokens
         set_ticks set_draws].
    split; [done|]. split; [intros; by apply Hkeep|]. right. by eexists.
  - cbn [snd users verificationTokens outbox set_verificationTokens
         set_ticks set_draws].
    split; [done|]. split; [intros; by apply Hkeep|]. by left.
Qed.

Lemma find_some_of_member {A} (f : A -> bool) (l : list A) x :
  In x l -> f x = true -> exists y, List.find f l = Some y.
Proof.
  intros Hin Hf. destruct (List.find f l) as [y|] eqn:E; [by exists y|].
  pose proof (List.find_none f l E x Hin). congruence.
Qed.

(** X24. Issue, then consume: the token a successful forgot-password
    request stores is accepted by a reset-password request of the same
    identity that presents it with a strong password before it expires;
    the reset is answered 200, the row is deleted and every row of the
    user holds the hash of the new password. *)
Theorem issued_token_can_be_consumed forgot reset w address user data :
  let cfg := rateLimitConfigs.passwordReset in
  let token := randomHex env (draws w) in
  let issuedAt := clock env (S (S (ticks w))) in
  let w1 := exec (ForgotPassword.POST env forgot) w in
  let w2 := exec (ResetPassword.POST env reset) w1 in
  result (createRateLimitMiddleware env cfg forgot) w = Returned None ->
  forgotPasswordSchema env (json forgot) = Some address ->
  List.find (fun u => String.eqb (email u) address) (users w) = Some user ->
  verificationTokens w !! token = None ->
  transportAccepts env (resetMail address token user) = true ->
  defaultKeyGenerator reset = defaultKeyGenerator forgot ->
  resetPasswordSchema (json reset) = Some data ->
  reset_token data = token ->
  Password.validatePasswordStrength (reset_password data) = [] ->
  clock env (S (S (ticks w1))) <= issuedAt + resetTokenExpiry env * 1000 ->
  result (ForgotPassword.POST env forgot) w
    = Returned ForgotPassword.successResponse /\
  result (ResetPassword.POST env reset) w1 = Returned resetSucceeded /\
  verificationTokens w2 !! token = None /\
  (forall u, In u (users w2) -> id u = id user ->
     password u = bcrypt_hash env (reset_password data)).
Proof.
  intros cfg token issuedAt w1 w2 Hgate Hschema Huser Hfresh Hmail
         Hkey Hschema2 Htoken Hstrong Hlive.
  pose proof (forgot_POST_validated env forgot w address Hgate Hschema) as E.
  cbv zeta in E. rewrite Huser in E. fold token in E.
  rewrite Hfresh, Hmail in E.
  match type of E with _ = (_, exec ?m ?w0) => set (wu := w0) in E end.
  assert (Hw1 : w1 = exec (updateRateLimit env forgot cfg true) wu)
    by (subst w1; unfold exec at 1; by rewrite E).
  destruct (sameDatabase_update forgot cfg true wu) as (Hu & Ht & _).
  rewrite <- Hw1 in Hu, Ht.
  assert (Hrow : verificationTokens w1 !! reset_token data =
                 Some (mkVerificationToken (id user)
                         (issuedAt + resetTokenExpiry env * 1000))).
  { rewrite Ht, Htoken. subst wu. cbn. apply lookup_insert_eq. }
  assert (Husers : users w1 = users w).
  { rewrite Hu. subst wu. cbn.
    apply (sameDatabase_check forgot cfg w). }
  assert (Hgate2 : result (createRateLimitMiddleware env cfg reset) w1
                   = Returned None).
  { apply middleware_passes_iff, underLimit_passes.
    change (keyOf cfg reset) with (defaultKeyGenerator reset).
    rewrite Hkey, Hw1.
    apply (underLimit_after_update_success env forgot wu
             (entryAfterCheck env cfg (keyOf cfg forgot) w)).
    - subst wu. cbn. apply (afterCheck_frame env forgot cfg w).
    - by apply middleware_passes_iff. }
  destruct (find_some_of_member
              (fun u => String.eqb (id u) (id user)) (users w1) user)
    as [owner Hown].
  { rewrite Husers. by apply List.find_some in Huser as [? _]. }
  { apply String.eqb_refl. }
  pose proof (find_by_id_found _ _ _ Hown) as Hid.
  pose proof (POST_validated env reset w1 data Hgate2 Hschema2 Hstrong) as E2.
  cbv zeta in E2. rewrite Hrow in E2. cbn [expires identifier] in E2.
  rewrite (gtb_false _ _ Hlive), Hown in E2.
  split; [unfold result; by rewrite E|].
  split; [unfold result; by rewrite E2|].
  subst w2. unfold exec at 1 2. rewrite E2. cbn [snd].
  match goal with |- context [exec (updateRateLimit ?a ?b ?c ?d) ?w0] =>
    destruct (sameDatabase_update b c d w0) as (-> & -> & _) end.
  cbn [users verificationTokens set_verificationTokens set_users].
  split; [rewrite <- Htoken; apply lookup_delete_eq|].
  intros u Hin Hu'. apply in_map_iff in Hin as (u0 & <- & _).
  rewrite Hid. destruct (String.eqb_spec (id u0) (id user)) as [Eq|Ne].
  - reflexivity.
  - cbn in Hu'. rewrite Hid in Hu'.
    destruct (String.eqb_spec (id u0) (id user)); [done|]. contradiction.
Qed.

(** ** register *)

(** The row [prisma.user.create] inserts for accepted registration data. *)
Definition registeredUser (w : World) (data : RegisterData) : User :=
  mkUser (randomHex env (draws w)) (Some (reg_name data)) (reg_email data)
         (bcrypt_hash env (reg_password data)) None None
         (clock env (S (S (ticks w)))) (clock env (S (S (ticks w)))).

Definition registrationSucceeded (u : User) : Response :=
  jsonResponse
    (MessageBody "User registered successfully"
       (Some (mkPublicUser (id u) (name u) (email u) None None
                           (Some (createdAt u))))) 201.

(** What the handler does with a request that passed the gate, the schema
    and the strength rules. *)
Lemma register_POST_validated request w data :
  let cfg := rateLimitConfigs.auth in
  let w1 := exec (checkRateLimit env request cfg) w in
  let user := registeredUser w data in
  result (createRateLimitMiddleware env cfg request) w = Returned None ->
  registerSchema env (json request) = Some data ->
  Password.validatePasswordStrength (reg_password data) = [] ->
  Register.POST env request w =
  match List.find (fun u => String.eqb (email u) (reg_email data)) (users w) with
  | Some _ =>
      (Returned (errorMessage "Email already registered" 409),
       exec (updateRateLimit env request cfg false) w1)
  | None =>
      match List.find (fun u => String.eqb (id u) (id user)) (users w) with
      | Some _ =>
          (Returned (errorMessage "Failed to register user" 500),
           set_draws (S (draws w)) w1)
      | None =>
          (Returned (registrationSucceeded user),
           exec (updateRateLimit env request cfg true)
             (set_users (users w ++ [user])
                (set_ticks (S (S (S (ticks w))))
                   (set_draws (S (draws w)) w1))))
      end
  end.
Proof.
  intros cfg w1 user Hgate Hschema Hstrong.
  apply middleware_passes_iff in Hgate.
  destruct (afterCheck_frame env request cfg w) as (Hl & Hu & Ht & Ho & Hd & Hk).
  fold w1 in Hl, Hu, Ht, Ho, Hd, Hk.
  unfold Register.POST, try_catch. unfold bind at 1. fold cfg.
  rewrite (middleware_pass env _ _ _ Hgate). fold w1. cbv beta iota.
  unfold requestJson. unfold bind at 1.
  destruct (json request) as [| |o] eqn:Hj; try discriminate Hschema;
    unfold ret at 1; cbv beta iota; rewrite Hschema; cbv beta iota zeta.
  rewrite Hstrong. cbn [length Nat.ltb Nat.leb].
  unfold bind at 1, Prisma.user_findUnique_email at 1, gets at 1. rewrite Hu.
  destruct (List.find (fun u => String.eqb (email u) (reg_email data)) (users w))
    as [existing|] eqn:Hfind.
  { by rewrite updateRateLimit_then. }
  unfold bind at 1, Password.hashPassword, ret at 1.
  unfold bind at 1, Prisma.user_create.
  unfold bind at 1, Prisma.user_findUnique_email at 1, gets at 1.
  rewrite Hu, Hfind.
  unfold bind at 1, nextRandomHex at 1. rewrite Hd.
  unfold bind at 1, Prisma.user_findUnique_id at 1, gets at 1.
  cbn [users set_draws]. rewrite Hu.
  change (randomHex env (draws w)) with (id user).
  destruct (List.find (fun u => String.eqb (id u) (id user)) (users w)) as [clash|].
  { reflexivity. }
  unfold bind at 1, dateNow at 1. cbn [ticks set_draws]. rewrite Hk.
  unfold bind at 1, modify at 1, ret at 1.
  rewrite updateRateLimit_then. unfold ret.
  cbn [users set_draws set_ticks]. rewrite Hu. reflexivity.
Qed.

Lemma find_app_none {A} (f : A -> bool) (l : list A) x :
  List.find f l = None -> f x = true -> List.find f (l ++ [x]) = Some x.
Proof.
  induction l as [|a l IH]; cbn; intros Hn Hx; [by rewrite Hx|].
  destruct (f a); [discriminate | by apply IH].
Qed.


(** X25. The only thing registration ever writes is one new user whose
    stored password is the bcrypt hash of the submitted one: whatever the
    request, the users table is either unchanged or extended by the row of
    a request that passed the schema and is answered 201; token rows and
    outbox are never touched. *)
Theorem register_only_appends_a_hashed_user request w :
  let w' := exec (Register.POST env request) w in
  (users w' = users w \/
   exists data,
     registerSchema env (json request) = Some data /\
     users w' = (users w ++ [registeredUser w data])%list /\
     password (registeredUser w data) = bcrypt_hash env (reg_password data) /\
     result (Register.POST env request) w
       = Returned (registrationSucceeded (registeredUser w data))) /\
  verificationTokens w' = verificationTokens w /\
  outbox w' = outbox w.
Proof.
  intros w'. subst w'. unfold result, exec.
  set (cfg := rateLimitConfigs.auth).
  pose proof (sameDatabase_check request cfg w) as Hc.
  assert (Hsame : forall (r : Outcome Response) w0,
            sameDatabase w w0 ->
            (users w0 = users w \/
             exists data,
               registerSchema env (json request) = Some data /\
               users w0 = (users w ++ [registeredUser w data])%list /\
               password (registeredUser w data)
                 = bcrypt_hash env (reg_password data) /\
               r = Returned (registrationSucceeded (registeredUser w data))) /\
            verificationTokens w0 = verificationTokens w /\
            outbox w0 = outbox w).
  { intros r w0 (Hu & Ht & Ho). by repeat split; [left|..]. }
  destruct (middleware_cases request cfg w) as [(response & E & _)|[E L]].
  { unfold Register.POST. rewrite (closed_gate_run _ _ _ _ _ _ E).
    cbn [fst snd]. by apply Hsame. }
  assert (Hgate : result (createRateLimitMiddleware env cfg request) w
                  = Returned None) by (by apply middleware_passes_iff).
  destruct (json request) as [| |o] eqn:Hj.
  { unfold Register.POST. rewrite (malformed_body_run _ _ _ _ _ _ E Hj).
    cbn [fst snd]. by apply Hsame. }
  { destruct (register_rejection_skips_update env request w Hgate)
      as (r & -> & _); [by rewrite Hj | left; by rewrite Hj |].
    cbn [fst snd]. by apply Hsame. }
  destruct (registerSchema env (BodyObject o)) as [data|] eqn:Hs.
  2:{ destruct (register_rejection_skips_update env request w Hgate)
        as (r & -> & _); [by rewrite Hj | left; by rewrite Hj |].
      cbn [fst snd]. by apply Hsame. }
  destruct (Password.validatePasswordStrength (reg_password data)) eqn:Hstr.
  2:{ destruct (register_rejection_skips_update env request w Hgate)
        as (r & -> & _); [by rewrite Hj | |].
      { right. exists data. rewrite Hj. split; [done|]. by rewrite Hstr. }
      cbn [fst snd]. by apply Hsame. }
  rewrite <- Hj in Hs.
  rewrite (register_POST_validated request w data Hgate Hs Hstr). cbv zeta.
  destruct Hc as (Hu & Ht & Ho).
  destruct (List.find _ (users w)) as [existing|].
  { cbn [fst snd]. apply Hsame.
    eapply sameDatabase_trans; [|apply sameDatabase_update]. by repeat split. }
  destruct (List.find _ (users w)) as [clash|].
  { cbn [fst snd]. apply Hsame. by repeat split. }
  cbn [fst snd].
  match goal with |- context [exec (updateRateLimit ?a ?b ?c ?d) ?w0] =>
    destruct (sameDatabase_update b c d w0) as (-> & -> & ->) end.
  cbn [users verificationTokens outbox set_users set_ticks set_draws].
  split; [|by split]. right. exists data. by repeat split.
Qed.


(** ** login *)

Lemma gate_outcome {A} (m : M (option A)) w :
  result m w = Returned None -> m w = (Returned None, exec m w).
Proof.
  unfold result, exec. destruct (m w) as [r w']. cbn. by intros ->.
Qed.

(** What the handler does once both gates are passed. *)
Lemma login_POST_after_gates request w :
  let cfg := rateLimitConfigs.login in
  let w1 := exec (createRateLimitMiddleware env cfg request) w in
  let w2 := exec (createLoginDelayMiddleware env request) w1 in
  let failed := exec (updateRateLimit env request cfg false)
                     (exec (recordFailedLogin env request) w2) in
  result (createRateLimitMiddleware env cfg request) w = Returned None ->
  result (createLoginDelayMiddleware env request) w1 = Returned None ->
  users w2 = users w /\
  (json request = BodyMalformed ->
     Login.POST env request w =
       (Returned (errorMessage "Failed to process login request" 500), failed)) /\
  (json request <> BodyMalformed -> loginSchema env (json request) = None ->
     Login.POST env request w =
       (Returned (jsonResponse
          (ErrorBody "Invalid input data" None None (Some ZodIssues)) 400),
        failed)) /\
  (forall data, loginSchema env (json request) = Some data ->
     Login.POST env request w =
       match List.find (fun u => String.eqb (email u) (login_email data))
                       (users w) with
       | Some u =>
           if bcrypt_compare env (login_password data) (password u)
           then (Returned (loginSuccess u),
                 exec (updateRateLimit env request cfg true)
                      (exec (clearFailedLogins request) w2))
           else (Returned (errorMessage "Invalid email or password" 401), failed)
       | None => (Returned (errorMessage "Invalid email or password" 401), failed)
       end).
Proof.
  intros cfg w1 w2 failed Hgate Hdelay.
  pose proof (gate_outcome _ _ Hgate) as E1. fold w1 in E1.
  pose proof (gate_outcome _ _ Hdelay) as E2. fold w2 in E2.
  assert (Hu : users w2 = users w).
  { destruct (sameDatabase_delayGate request w1) as (Hu2 & _). fold w2 in Hu2.
    rewrite Hu2. subst w1. unfold exec. apply middleware_passes_iff in Hgate.
    rewrite (middleware_pass env _ _ _ Hgate). cbn.
    apply (afterCheck_frame env request cfg w). }
  split; [exact Hu|].
  assert (E : forall k : Body -> M Response,
    try_catch
      (let! rateLimitResponse := createRateLimitMiddleware env cfg request in
       match rateLimitResponse with
       | Some response => ret response
       | None =>
           let! delayResponse := createLoginDelayMiddleware env request in
           match delayResponse with
           | Some response => ret response
           | None => let! body := requestJson request in k body
           end
       end)
      (do! recordFailedLogin env request in
       do! updateRateLimit env request cfg false in
       ret (errorMessage "Failed to process login request" 500)) w =
    match json request with
    | BodyMalformed =>
        (Returned (errorMessage "Failed to process login request" 500), failed)
    | b =>
        try_catch (k b)
          (do! recordFailedLogin env request in
           do! updateRateLimit env request cfg false in
           ret (errorMessage "Failed to process login request" 500)) w2
    end).
  { intros k. unfold try_catch at 1. unfold bind at 1. rewrite E1.
    cbv beta iota. unfold bind at 1. rewrite E2. cbv beta iota.
    unfold requestJson, bind at 1.
    destruct (json request); unfold throw, ret at 1; cbv beta iota;
      [|reflexivity..].
    by rewrite recordFailedLogin_then, updateRateLimit_then. }
  unfold Login.POST. fold cfg. rewrite E. clear E.
  split; [by intros ->|]. split.
  - intros Hj Hs. destruct (json request) as [| |o]; [done| |];
      rewrite Hs; unfold try_catch;
      by rewrite recordFailedLogin_then, updateRateLimit_then.
  - intros data Hs. destruct (json request) as [| |o]; try discriminate Hs;
      rewrite Hs. unfold try_catch.
    unfold bind at 1, Prisma.user_findUnique_email, gets. rewrite Hu.
    destruct (List.find _ (users w)) as [u|].
    + destruct (bcrypt_compare env (login_password data) (password u)).
      * assert (Ec : clearFailedLogins request w2 =
                     (Returned tt, exec (clearFailedLogins request) w2))
          by reflexivity.
        unfold bind at 1. rewrite Ec. by rewrite updateRateLimit_then.
      * by rewrite recordFailedLogin_then, updateRateLimit_then.
    + by rewrite recordFailedLogin_then, updateRateLimit_then.
Qed.


(** X28. Register, then log in: after a successful registration, a login
    request that passes its two gates with the registered address and
    password is answered 200 with the new user's public fields, provided
    bcrypt's [compare] accepts the hash it made of that password. *)
Theorem registered_user_can_log_in registration login w data credentials :
  let user := registeredUser w data in
  let w1 := exec (Register.POST env registration) w in
  let w2 := exec (createRateLimitMiddleware env rateLimitConfigs.login login) w1 in
  result (createRateLimitMiddleware env rateLimitConfigs.auth registration) w
    = Returned None ->
  registerSchema env (json registration) = Some data ->
  Password.validatePasswordStrength (reg_password data) = [] ->
  List.find (fun u => String.eqb (email u) (reg_email data)) (users w) = None ->
  List.find (fun u => String.eqb (id u) (id user)) (users w) = None ->
  bcrypt_compare env (reg_password data) (bcrypt_hash env (reg_password data))
    = true ->
  result (createRateLimitMiddleware env rateLimitConfigs.login login) w1
    = Returned None ->
  result (createLoginDelayMiddleware env login) w2 = Returned None ->
  loginSchema env (json login) = Some credentials ->
  login_email credentials = reg_email data ->
  login_password credentials = reg_password data ->
  result (Register.POST env registration) w
    = Returned (registrationSucceeded user) /\
  result (Login.POST env login) w1 = Returned (loginSuccess user).
Proof.
  intros user w1 w2 Hgate Hschema Hstrong Hfree Hid Hbcrypt Hgate2 Hdelay
         Hcred Hmail Hpw.
  pose proof (register_POST_validated registration w data Hgate Hschema Hstrong)
    as E.
  cbv zeta in E. rewrite Hfree in E. fold user in E. rewrite Hid in E.
  assert (Husers : users w1 = (users w ++ [user])%list).
  { subst w1. unfold exec at 1. rewrite E. cbn [snd].
    match goal with |- context [exec (updateRateLimit ?a ?b ?c ?d) ?w0] =>
      destruct (sameDatabase_update b c d w0) as (-> & _) end.
    reflexivity. }
  split; [unfold result; by rewrite E|].
  destruct (login_POST_after_gates login w1 Hgate2 Hdelay) as (_ & _ & _ & El).
  unfold result. rewrite (El credentials Hcred), Hmail, Husers.
  rewrite (find_app_none _ _ user Hfree) by apply String.eqb_refl.
  rewrite Hpw. cbn [password user registeredUser]. by rewrite Hbcrypt.
Qed.




(** ** The credentials provider *)



End HandlersMore.

(* ===================================================================== *)
(** * Further worked scenarios                                            *)
(* ===================================================================== *)

Section MoreScenarios.
Import RateLimit Schema Scenario.

(** X5, at the filled-in registration form. *)
Lemma client_registration_accepted_by_server_witness :
  Schema.registerSchema env (BodyObject registrationForm) =
    Some (mkRegisterData "Alice Smith" "alice@example.com" "Secret123!") /\
  Password.validatePasswordStrength "Secret123!" = [].
Proof.
  exact (client_registration_accepted_by_server env registrationForm
           (Validation.mkRegisterFormData "Alice Smith" "alice@example.com"
              "Secret123!" "Secret123!") eq_refl).
Defined.





(** X15, at an identity that has used its five login attempts. *)
Lemma rate_limit_rejection_witness :
  exists retry1 retry2,
    result (createRateLimitMiddleware env rateLimitConfigs.login forgotRequest)
           (spent 5 1700000900000) =
      Returned (Some (mkResponse
        (ErrorBody "Too many requests. Please try again later."
                   (Some "RATE_LIMIT_EXCEEDED") (Some retry1) None)
        429
        [("X-RateLimit-Limit", HNumber 5);
         ("X-RateLimit-Remaining", HNumber 0);
         ("X-RateLimit-Reset", HInstant 1700000900000);
         ("Retry-After", HNumber retry2)])) /\
    1000 * (retry1 - 1) < 1700000900000 - 1700000000002 <= 1000 * retry1 /\
    1000 * (retry2 - 1) < 1700000900000 - 1700000000003 <= 1000 * retry2.
Proof.
  exact (rate_limit_rejection env forgotRequest rateLimitConfigs.login
           (spent 5 1700000900000) ltac:(vm_compute; discriminate)).
Defined.

(** X16, one millisecond into a four-second delay. *)
Lemma login_delay_rejection_witness :
  exists retry,
    result (createLoginDelayMiddleware env forgotRequest) delayed =
      Returned (Some (mkResponse
        (ErrorBody "Too many failed login attempts. Please try again later."
                   (Some "LOGIN_DELAY") (Some retry) None)
        429 [("Retry-After", HNumber retry)])) /\
    1 <= retry /\
    1000 * (retry - 1) < 1700000004000 - 1700000000001 <= 1000 * retry.
Proof.
  exact (login_delay_rejection env forgotRequest delayed
           (mkFailedLoginEntry 3 1700000000000 1700000004000)
           eq_refl ltac:(vm_compute; intro; discriminate) eq_refl).
Defined.

(** X17: a third failure counted under the login configuration closes the
    password-reset gate. *)
Lemma limiter_entry_is_shared_across_configs_witness :
  result (checkRateLimit env forgotRequest rateLimitConfigs.passwordReset)
    (exec (updateRateLimit env forgotRequest rateLimitConfigs.login false)
       (spent 2 1700000900000))
  = Returned (mkCheckResult true 0 1700000900000).
Proof.
  exact (limiter_entry_is_shared_across_configs env forgotRequest
           rateLimitConfigs.login rateLimitConfigs.passwordReset
           (spent 2 1700000900000)
           (mkRateLimitEntry 2 1700000900000 2 None)
           eq_refl eq_refl eq_refl
           ltac:(vm_compute; intro; discriminate)
           ltac:(vm_compute; intro; discriminate)).
Defined.

(** X19, at an identity that has used five attempts: even the valid
    login of [alice] and a body that is not JSON are turned away. *)
Lemma closed_gate_rejects_any_payload_witness :
  (exists r, result (Login.POST env (loginRequest "Secret123!"))
                    (spent 5 1700000900000) = Returned r /\ status r = 429) /\
  (exists r, result (ResetPassword.POST env garbledRequest)
                    (spent 5 1700000900000) = Returned r /\ status r = 429).
Proof.
  split.
  - destruct (closed_gate_rejects_any_payload env (loginRequest "Secret123!")
                (spent 5 1700000900000)
                (mkRateLimitEntry 5 1700000900000 5 None) eq_refl
                ltac:(vm_compute; intro; discriminate)
                ltac:(vm_compute; intro; discriminate)) as [H5 _].
    destruct (H5 ltac:(vm_compute; discriminate)) as [_ [H _]]. exact H.
  - destruct (closed_gate_rejects_any_payload env garbledRequest
                (spent 5 1700000900000)
                (mkRateLimitEntry 5 1700000900000 5 None) eq_refl
                ltac:(vm_compute; intro; discriminate)
                ltac:(vm_compute; intro; discriminate)) as [_ H3].
    destruct (H3 ltac:(vm_compute; discriminate)) as [_ [H _]]. exact H.
Defined.

(** X21, at the reset of [alice]'s password. *)
Lemma reset_password_updates_only_the_owner_witness :
  Forall2
    (fun before after =>
       email after = email before /\
       (id before = "u1" -> password after = "bcrypt:NewSecret123!"))
    [alice]
    (users (exec (ResetPassword.POST env resetRequest)
                 (withToken 1800000000000))).
Proof.
  destruct (reset_password_updates_only_the_owner env resetRequest
              (withToken 1800000000000)
              (mkResetPasswordData "t0" "NewSecret123!" "NewSecret123!")
              (mkVerificationToken "u1" 1800000000000) alice
              eq_refl eq_refl eq_refl eq_refl
              ltac:(vm_compute; intro; discriminate) eq_refl) as [_ H].
  apply (Forall2_impl _ _ _ _ H).
  intros before after (_ & Hmail & _ & _ & Hown).
  split; [exact Hmail|]. intros Hid. exact (proj1 (Hown Hid)).
Defined.


(** X24: [alice] asks for a reset and uses the token she is sent. *)
Lemma issued_token_can_be_consumed_witness :
  let w1 := exec (ForgotPassword.POST env forgotRequest) registered in
  result (ResetPassword.POST env issuedTokenReset) w1 = Returned resetSucceeded /\
  verificationTokens (exec (ResetPassword.POST env issuedTokenReset) w1)
    !! "a9f3c" = None.
Proof.
  destruct (issued_token_can_be_consumed env forgotRequest issuedTokenReset
              registered "alice@example.com" alice
              (mkResetPasswordData "a9f3c" "NewSecret123!" "NewSecret123!")
              eq_refl eq_refl eq_refl eq_refl eq_refl eq_refl eq_refl eq_refl
              eq_refl ltac:(vm_compute; intro; discriminate))
    as (_ & H2 & H3 & _).
  exact (conj H2 H3).
Defined.



(** X28: Bob registers and logs in. *)
Lemma registered_user_can_log_in_witness :
  exists bob,
    result (Login.POST env bobLogin)
           (exec (Register.POST env bobRegistration) registered)
    = Returned (loginSuccess bob) /\
    email bob = "bob@example.com".
Proof.
  destruct (registered_user_can_log_in env bobRegistration bobLogin registered
              (mkRegisterData "Bob" "bob@example.com" "Secret123!")
              (mkLoginData "bob@example.com" "Secret123!" None)
              eq_refl eq_refl eq_refl eq_refl eq_refl eq_refl eq_refl eq_refl
              eq_refl eq_refl eq_refl) as [_ H].
  eexists. split; [exact H | reflexivity].
Defined.



End MoreScenarios.
